(** * code_search.py: the ripgrep result viewer

    A shallow embedding of the in-process logic of [src/code_search.py]:
    the keyword painter of [HighlightDelegate.paint], the search slot
    [RipgrepTreeViewer.perform_search] with its parsing and grouping loop,
    and [RipgrepTreeViewer.open_file_location].

    Python [str] values are modelled as [string]: sequences of code points
    in the range 0..255.  The Python built-ins the source calls
    ([str.strip], [str.split], [in], [int], [str], [os.path.join]) are
    modelled on that range, [os.path] being [posixpath].  The widget and
    what it does to the world (lines printed, the stored path, processes
    started, shell commands) are one record threaded through the methods;
    an exception that leaves a method is an outcome of its own. *)

From Stdlib Require Import Bool Arith ZArith Lia List Ascii String.
From Stdlib Require Import DecimalString.
Import ListNotations.

Open Scope list_scope.
Open Scope string_scope.

(** ** Python built-ins on strings *)

Module Py.

(** [c.isspace()] for a code point below 256: [\t \n \v \f \r], the
    separators 0x1c..0x1f, the space, NEL (0x85) and NBSP (0xa0). *)
Definition isspace (c : ascii) : bool :=
  let n := nat_of_ascii c in
  (((9 <=? n) && (n <=? 13)) || ((28 <=? n) && (n <=? 32))
   || (n =? 133) || (n =? 160))%nat.

(** [s.lstrip()], [s.rstrip()] and [s.strip()] without argument. *)
Fixpoint lstrip (s : string) : string :=
  match s with
  | String c s' => if isspace c then lstrip s' else s
  | EmptyString => EmptyString
  end.

Fixpoint rstrip (s : string) : string :=
  match s with
  | String c s' =>
      match rstrip s' with
      | EmptyString => if isspace c then EmptyString else String c EmptyString
      | r => String c r
      end
  | EmptyString => EmptyString
  end.

Definition strip (s : string) : string := rstrip (lstrip s).

(** [sub in s]: [sub] occurs in [s] as a contiguous substring. *)
Fixpoint contains (sub s : string) : bool :=
  prefix sub s ||
  match s with
  | String _ s' => contains sub s'
  | EmptyString => false
  end.

(** [s.split(sep, maxsplit)] for a non-empty [sep] (Python raises
    [ValueError] on an empty separator; the source only ever passes
    ['\n'], [':'] and a keyword it has tested to be non-empty).
    [maxsplit = None] is Python's default of -1, no limit.

    The scan is one pass from the left: [skip] counts the characters of a
    separator just matched that are still to be passed over, and the head
    of the returned list is the segment under construction. *)
Definition can_split (maxsplit : option nat) : bool :=
  match maxsplit with
  | Some O => false
  | _ => true
  end.

Definition one_less (maxsplit : option nat) : option nat :=
  match maxsplit with
  | Some n => Some (Nat.pred n)
  | None => None
  end.

Fixpoint split_from (sep : string) (maxsplit : option nat) (skip : nat)
    (s : string) : list string :=
  match s with
  | EmptyString => [EmptyString]
  | String c s' =>
      match skip with
      | S k => split_from sep maxsplit k s'
      | O =>
          if can_split maxsplit && prefix sep s
          then EmptyString
               :: split_from sep (one_less maxsplit) (Nat.pred (length sep)) s'
          else
            match split_from sep maxsplit O s' with
            | seg :: rest => String c seg :: rest
            | [] => [String c EmptyString]
            end
      end
  end.

Definition split (sep : string) (maxsplit : option nat) (s : string)
  : list string :=
  split_from sep maxsplit O s.

(** [sep.join(parts)]. *)
Definition join (sep : string) (parts : list string) : string :=
  concat sep parts.

(** [int(s)] in base 10.  Leading and trailing whitespace is dropped, an
    optional sign follows, then decimal digits in which single underscores
    may separate digits.  Only ASCII whitespace and, through the
    decimal-and-space transform applied to non-ASCII input, the code points
    0x85 and 0xa0 count as whitespace here: the separators 0x1c..0x1f do
    not.  [ValueError] is [None]. *)
Definition int_space (c : ascii) : bool :=
  let n := nat_of_ascii c in
  (((9 <=? n) && (n <=? 13)) || (n =? 32) || (n =? 133) || (n =? 160))%nat.

Fixpoint skip_int_space (s : string) : string :=
  match s with
  | String c s' => if int_space c then skip_int_space s' else s
  | EmptyString => EmptyString
  end.

Definition is_digit (c : ascii) : bool :=
  let n := nat_of_ascii c in ((48 <=? n) && (n <=? 57))%nat.

Definition digit_value (c : ascii) : Z := Z.of_nat (nat_of_ascii c - 48).

Definition is_underscore (c : ascii) : bool := Ascii.eqb c "_"%char.

(** The digit scanner: [acc] is the value read so far, [count] the number
    of digit characters, [prev_us] whether the previous character was an
    underscore.  It stops at the first character that is neither a digit
    nor an underscore and returns the rest of the input. *)
Fixpoint scan_digits (s : string) (prev_us : bool) (acc : Z) (count : nat)
  : option (Z * nat * string) :=
  match s with
  | String c s' =>
      if is_digit c
      then scan_digits s' false (10 * acc + digit_value c)%Z (S count)
      else if is_underscore c
      then (if prev_us then None else scan_digits s' true acc count)
      else (if prev_us then None else Some (acc, count, s))
  | EmptyString => if prev_us then None else Some (acc, count, s)
  end.

(** The interpreter's limit on the number of digits of an integer string
    ([sys.get_int_max_str_digits()], 4300 by default since Python 3.11, 0
    when disabled or absent); it only applies above 640 digits. *)
Definition over_digit_limit (int_max_str_digits count : nat) : bool :=
  ((640 <? count) && (0 <? int_max_str_digits)
   && (int_max_str_digits <? count))%nat.

Definition read_sign (s : string) : bool * string :=
  match s with
  | String c r =>
      if Ascii.eqb c "+"%char then (false, r)
      else if Ascii.eqb c "-"%char then (true, r)
      else (false, s)
  | EmptyString => (false, s)
  end.

Definition leading_underscore (s : string) : bool :=
  match s with
  | String c _ => is_underscore c
  | EmptyString => false
  end.

Definition int (int_max_str_digits : nat) (s : string) : option Z :=
  let '(negative, digits) := read_sign (skip_int_space s) in
  if leading_underscore digits then None
  else
    match scan_digits digits false 0%Z O with
    | None => None
    | Some (v, count, rest) =>
        if (count =? 0)%nat then None
        else if over_digit_limit int_max_str_digits count then None
        else
          match skip_int_space rest with
          | EmptyString => Some (if negative then (- v)%Z else v)
          | _ => None
          end
    end.

(** [str(n)] for an integer, also what an f-string writes for it. *)
Definition str_of_int (n : Z) : string :=
  NilZero.string_of_int (Z.to_int n).

(** [os.path.join(a, b)] of [posixpath]. *)
Definition startswith_sep (s : string) : bool := prefix "/" s.

Fixpoint endswith_sep (s : string) : bool :=
  match s with
  | String c EmptyString => Ascii.eqb c "/"%char
  | String _ s' => endswith_sep s'
  | EmptyString => false
  end.

Definition path_join (a b : string) : string :=
  if startswith_sep b then b
  else if (a =? "") || endswith_sep a then a ++ b
  else a ++ "/" ++ b.

End Py.

(** The line feed and the double quote. *)
Definition LF : string := String (ascii_of_nat 10) EmptyString.
Definition DQ : string := String (ascii_of_nat 34) EmptyString.

(** The NUL character. *)
Definition NUL : string := String Ascii.zero EmptyString.

(** ** HighlightDelegate.paint *)

(** The painter calls that carry text: each [drawText(x, y, s)] with the
    pen set just before it.  [y], the font, the selection background and
    [save]/[restore] do not depend on the text and are left out. *)
Inductive pen := TextColor | Red.

Record draw := Draw { draw_x : Z; draw_pen : pen; draw_text : string }.

Inductive painted :=
| DefaultPaint (text : string)   (* [super().paint(painter, option, index)] *)
| Drawn (calls : list draw).

Section Paint.

(** [option.fontMetrics.width] and [option.rect.x()]. *)
Variable width : string -> Z.
Variable rect_x : Z.

(** The [for i, segment in enumerate(segments)] loop. *)
Fixpoint draw_segments (keyword : string) (x : Z) (segments : list string)
  : list draw :=
  match segments with
  | [] => []
  | segment :: rest =>
      Draw x TextColor segment ::
      match rest with
      | [] => []
      | _ :: _ =>
          Draw (x + width segment) Red keyword ::
          draw_segments keyword (x + width segment + width keyword) rest
      end
  end.

(** [paint], for the value [data] of [index.data()] and the delegate's
    keyword. *)
Definition paint (keyword : string) (data : option string) : painted :=
  let text := match data with Some t => t | None => "" end in
  if (keyword =? "") || negb (Py.contains keyword text)
  then DefaultPaint text
  else Drawn (draw_segments keyword rect_x (Py.split keyword None text)).

End Paint.

Definition is_red (p : pen) : bool :=
  match p with Red => true | TextColor => false end.

(** What is painted, read as (segment, isKeyword) pairs in painting order:
    the default painter shows the whole text in the text colour. *)
Definition seg_of_draw (d : draw) : string * bool :=
  (draw_text d, is_red (draw_pen d)).

Definition segments_of (p : painted) : list (string * bool) :=
  match p with
  | DefaultPaint text => [(text, false)]
  | Drawn calls => map seg_of_draw calls
  end.

Definition highlight_segments (text keyword : string) : list (string * bool) :=
  segments_of (paint (fun s => Z.of_nat (length s)) 0%Z keyword (Some text)).

(** ** RipgrepTreeViewer *)

(** The [files] dictionary of [perform_search]: insertion-ordered, keys
    unique, each value a list of [(int(lineno), code.strip())] tuples. *)
Definition match_line : Type := Z * string.
Definition files_dict : Type := list (string * list match_line).

Fixpoint dict_mem (k : string) (d : files_dict) : bool :=
  match d with
  | [] => false
  | (k', _) :: d' => (k' =? k) || dict_mem k d'
  end.

(** [files[k] = []] for a key that is absent: a new last entry. *)
Definition dict_new (k : string) (d : files_dict) : files_dict :=
  (d ++ [(k, [])])%list.

(** [files[k].append(v)]. *)
Fixpoint dict_append (k : string) (v : match_line) (d : files_dict)
  : files_dict :=
  match d with
  | [] => []
  | (k', l) :: d' =>
      if k' =? k then (k', (l ++ [v])%list) :: d' else (k', l) :: dict_append k v d'
  end.

Fixpoint dict_get (k : string) (d : files_dict) : option (list match_line) :=
  match d with
  | [] => None
  | (k', l) :: d' => if k' =? k then Some l else dict_get k d'
  end.

(** A tree item: the column-0 label of a file item and, for each child,
    its two columns. *)
Record tree_item := TreeItem {
  item_label : string;
  item_children : list (string * string)
}.

(** What [subprocess.check_output] can do. *)
Inductive process :=
| Completed (output : string)
| CalledProcessError (output : string)
| FileNotFoundError
| OtherError.

Inductive exn := ValueError | SubprocessError.

(** The widget's state together with what it has done to the world:
    lines printed, settings stored, processes started. *)
Record viewer := Viewer {
  path_input : string;
  query_input : string;
  tree : list tree_item;
  delegate : option string;
  last_sdk_path : string;
  stdout : list string;
  spawned : list (list string * string);
  shell : list string
}.

Inductive outcome :=
| Returned (w : viewer)
| Raised (e : exn) (w : viewer).

Definition print (s : string) (w : viewer) : viewer :=
  Viewer (path_input w) (query_input w) (tree w) (delegate w)
         (last_sdk_path w) (stdout w ++ [s])%list (spawned w) (shell w).

Definition set_tree (t : list tree_item) (w : viewer) : viewer :=
  Viewer (path_input w) (query_input w) t (delegate w)
         (last_sdk_path w) (stdout w) (spawned w) (shell w).

Definition set_delegate (k : string) (w : viewer) : viewer :=
  Viewer (path_input w) (query_input w) (tree w) (Some k)
         (last_sdk_path w) (stdout w) (spawned w) (shell w).

Definition save_last_path (p : string) (w : viewer) : viewer :=
  Viewer (path_input w) (query_input w) (tree w) (delegate w)
         p (stdout w) (spawned w) (shell w).

Definition spawn (cmd : list string) (cwd : string) (w : viewer) : viewer :=
  Viewer (path_input w) (query_input w) (tree w) (delegate w)
         (last_sdk_path w) (stdout w) (spawned w ++ [(cmd, cwd)])%list (shell w).

(** [os.system(command)].  A command with an embedded NUL character is
    refused with [ValueError] before anything is run; every other command
    line is handed to the shell as it is, and [shell] records it.  Neither
    caller looks at the exit status. *)
Fixpoint has_nul (s : string) : bool :=
  match s with
  | String c s' => Ascii.eqb c Ascii.zero || has_nul s'
  | EmptyString => false
  end.

Definition os_system (cmd : string) (w : viewer) : outcome :=
  if has_nul cmd then Raised ValueError w
  else
    Returned
      (Viewer (path_input w) (query_input w) (tree w) (delegate w)
              (last_sdk_path w) (stdout w) (spawned w) (shell w ++ [cmd])%list).

Section Viewer.

(** The interpreter's [int_max_str_digits] and the behaviour of
    [subprocess.check_output(cmd, cwd=...)]. *)
Variable int_max_str_digits : nat.
Variable check_output : list string -> string -> process.

(** The state of the parsing loop of [perform_search]: the dictionary
    built so far and the lines the loop has printed. *)
Inductive loop_result :=
| Next (files : files_dict) (out : list string)
| Fail (e : exn) (out : list string).

(** One iteration of [for line in results.strip().split('\n')]. *)
Definition loop_body (root_path line : string) (files : files_dict)
    (out : list string) : loop_result :=
  if negb (Py.contains ":" line) then Next files out
  else
    let parts := Py.split ":" (Some 2) line in
    if (List.length parts <? 3)%nat then Next files out
    else
      match parts with
      | [filepath; lineno; code] =>
          let fullpath := Py.path_join root_path filepath in
          let files1 :=
            if dict_mem fullpath files then files else dict_new fullpath files in
          match Py.int int_max_str_digits lineno with
          | None => Fail ValueError out
          | Some n =>
              Next (dict_append fullpath (n, Py.strip code) files1)
                   (out ++ [("[DEBUG] Match: " ++ fullpath ++ ":" ++ lineno
                             ++ " -> " ++ Py.strip code)%string])%list
          end
      | _ => Fail ValueError out   (* tuple unpacking of [parts] *)
      end.

Fixpoint parse_loop (root_path : string) (lines : list string)
    (files : files_dict) (out : list string) : loop_result :=
  match lines with
  | [] => Next files out
  | line :: rest =>
      match loop_body root_path line files out with
      | Next files' out' => parse_loop root_path rest files' out'
      | Fail e out' => Fail e out'
      end
  end.

(** [results.strip().split('\n')]. *)
Definition result_lines (results : string) : list string :=
  Py.split LF None (Py.strip results).

(** Lines 138-150: from the output of the search tool and the root to the
    [files] dictionary. *)
Definition parse (results root_path : string) : loop_result :=
  parse_loop root_path (result_lines results) [] [].

(** Lines 152-157: the tree built from [files.items()]. *)
Definition file_item (entry : string * list match_line) : tree_item :=
  let '(filepath, lines) := entry in
  TreeItem filepath
    (map (fun '(lineno, code) =>
            (filepath ++ ":" ++ Py.str_of_int lineno, code)) lines).

Definition rg_command (keyword : string) : list string :=
  ["rg"; "--no-ignore"; "--color=never"; "--with-filename"; "--line-number";
   "--glob"; "**/*.c"; "--glob"; "**/*.h"; keyword].

Definition perform_search (w0 : viewer) : outcome :=
  let w := set_tree [] w0 in
  let keyword := Py.strip (query_input w) in
  let root_path := Py.strip (path_input w) in
  if (keyword =? "") || (root_path =? "") then
    Returned (print "[WARN] Missing keyword or SDK path" w)
  else
    let w := save_last_path root_path w in
    let cmd := rg_command keyword in
    let w := print ("[INFO] Running: " ++ Py.join " " cmd) w in
    let w := print ("[INFO] In directory: " ++ root_path) w in
    let w := spawn cmd root_path w in
    match check_output cmd root_path with
    | CalledProcessError output =>
        Returned (print output
                   (print "[ERROR] ripgrep returned non-zero exit code" w))
    | FileNotFoundError =>
        Returned (print "[ERROR] ripgrep (rg) is not installed or not in PATH" w)
    | OtherError => Raised SubprocessError w
    | Completed results =>
        let w := print "[INFO] ripgrep output:" w in
        let w := print results w in
        match parse results root_path with
        | Fail e out => Raised e (fold_left (fun w s => print s w) out w)
        | Next files out =>
            let w := fold_left (fun w s => print s w) out w in
            let w := set_tree (map file_item files) w in
            Returned (set_delegate keyword w)
        end
    end.

(** [open_file_location(item)], for the text of column 0 of the item. *)
Definition open_file_location (text : string) (w : viewer) : outcome :=
  if Py.contains ":" text then
    match Py.split ":" (Some 1) text with
    | [filepath; lineno] =>
        let w := print ("[INFO] Opening file: " ++ filepath
                        ++ " at line " ++ lineno) w in
        os_system ("code -g " ++ DQ ++ filepath ++ DQ ++ ":" ++ lineno) w
    | _ => Raised ValueError w   (* tuple unpacking *)
    end
  else os_system ("code " ++ DQ ++ text ++ DQ) w.

End Viewer.


(** ** The rest of RipgrepTreeViewer *)

Definition set_path_input (p : string) (w : viewer) : viewer :=
  Viewer p (query_input w) (tree w) (delegate w)
         (last_sdk_path w) (stdout w) (spawned w) (shell w).

(** [load_last_path]: [settings.value("last_sdk_path", "")], put into the
    path field when it is not empty. *)
Definition load_last_path (w : viewer) : viewer :=
  let last_path := last_sdk_path w in
  if last_path =? "" then w else set_path_input last_path w.

(** [browse_path], for the directory the dialog returns (empty when the
    dialog is cancelled). *)
Definition browse_path (path : string) (w : viewer) : viewer :=
  if path =? "" then w
  else save_last_path path (set_path_input path w).

(** [__init__], for the value the settings hold and what the process has
    printed and started so far: empty fields, an empty tree, no delegate,
    then [load_last_path]. *)
Definition init (stored : string) (out : list string)
    (procs : list (list string * string)) (cmds : list string) : viewer :=
  load_last_path (Viewer "" "" [] None stored out procs cmds).

(** The viewer a method leaves behind, returned or raised. *)
Definition final (o : outcome) : viewer :=
  match o with
  | Returned w => w
  | Raised _ w => w
  end.


(** The keyword and the root [perform_search] works with. *)
Definition search_keyword (w : viewer) : string := Py.strip (query_input w).
Definition search_root (w : viewer) : string := Py.strip (path_input w).
(** ** Notions used to state the properties *)

(** The slices [s[:n]] and [s[n:]]. *)
Fixpoint take (n : nat) (s : string) : string :=
  match n, s with
  | S k, String c s' => String c (take k s')
  | _, _ => EmptyString
  end.

Fixpoint drop (n : nat) (s : string) : string :=
  match n, s with
  | S k, String _ s' => drop k s'
  | _, _ => s
  end.

(** [s.find(sep)]: the index of the leftmost occurrence of [sep]. *)
Fixpoint str_find (sep s : string) : option nat :=
  if prefix sep s then Some O
  else
    match s with
    | String _ s' => option_map S (str_find sep s')
    | EmptyString => None
    end.

(** The number of occurrences of a character, and of the colon. *)
Fixpoint count_char (c : ascii) (s : string) : nat :=
  match s with
  | String c' s' => (if Ascii.eqb c' c then 1 else 0) + count_char c s'
  | EmptyString => 0
  end.

Definition colons (s : string) : nat := count_char ":"%char s.

(** Strings made of whitespace only; strings that neither start nor end
    with whitespace. *)
Fixpoint all_space (s : string) : bool :=
  match s with
  | String c s' => Py.isspace c && all_space s'
  | EmptyString => true
  end.

Definition starts_with_space (s : string) : bool :=
  match s with
  | String c _ => Py.isspace c
  | EmptyString => false
  end.

Fixpoint ends_with_space (s : string) : bool :=
  match s with
  | String c EmptyString => Py.isspace c
  | String _ s' => ends_with_space s'
  | EmptyString => false
  end.

Definition trimmed (s : string) : bool :=
  negb (starts_with_space s) && negb (ends_with_space s).

(** A character repeated [n] times. *)
Fixpoint repeated (c : ascii) (n : nat) : string :=
  match n with
  | O => EmptyString
  | S k => String c (repeated c k)
  end.

(** A plain decimal integer: an optional sign and one or more digits. *)
Fixpoint all_digits (s : string) : bool :=
  match s with
  | String c s' => Py.is_digit c && all_digits s'
  | EmptyString => true
  end.

Definition unsigned_part (s : string) : string :=
  match s with
  | String c r =>
      if Ascii.eqb c "+"%char || Ascii.eqb c "-"%char then r else s
  | EmptyString => s
  end.

Definition decimal_literal (s : string) : bool :=
  negb (unsigned_part s =? "") && all_digits (unsigned_part s).

Definition within_digit_limit (int_max_str_digits : nat) (s : string) : bool :=
  negb (Py.over_digit_limit int_max_str_digits (length (unsigned_part s))).

(** The three fields of a line that the loop keeps: [filePathPart],
    [lineNumberPart] and [remainder]. *)
Definition line_fields (line : string) : option (string * string * string) :=
  if Py.contains ":" line then
    match Py.split ":" (Some 2) line with
    | [filepath; lineno; code] => Some (filepath, lineno, code)
    | _ => None
    end
  else None.

(** The match a kept line stands for: the key it is filed under and its
    [(lineNumber, text)]. *)
Definition line_match (int_max_str_digits : nat) (root_path line : string)
  : option (string * match_line) :=
  match line_fields line with
  | Some (filepath, lineno, code) =>
      match Py.int int_max_str_digits lineno with
      | Some n => Some (Py.path_join root_path filepath, (n, Py.strip code))
      | None => None
      end
  | None => None
  end.

Fixpoint matches_of (int_max_str_digits : nat) (root_path : string)
    (lines : list string) : list (string * match_line) :=
  match lines with
  | [] => []
  | line :: rest =>
      match line_match int_max_str_digits root_path line with
      | Some m => m :: matches_of int_max_str_digits root_path rest
      | None => matches_of int_max_str_digits root_path rest
      end
  end.

(** A line the loop gets past: it is skipped, or [int] accepts its number
    field. *)
Definition line_ok (int_max_str_digits : nat) (line : string) : Prop :=
  forall a b c,
    line_fields line = Some (a, b, c) ->
    Py.int int_max_str_digits b <> None.

(** Membership of a key in a list of keys. *)
Definition has_key (k : string) (ks : list string) : bool :=
  existsb (fun k' => k' =? k) ks.

(** First-seen order of a list of keys: every key once, at the place of
    its first occurrence. *)
Fixpoint first_seen (keys : list string) : list string :=
  match keys with
  | [] => []
  | k :: rest => k :: filter (fun k' => negb (k' =? k)) (first_seen rest)
  end.

(** The matches filed under one key, in their order. *)
Definition lines_of (k : string) (ms : list (string * match_line))
  : list match_line :=
  map snd (filter (fun m => fst m =? k) ms).

(** Lines 146-149 on the dictionary: create the entry if absent, then
    append to it. *)
Definition dict_add (k : string) (v : match_line) (d : files_dict)
  : files_dict :=
  dict_append k v (if dict_mem k d then d else dict_new k d).

(** Matches grouped by key: keys in first-seen order, each with its
    matches in their order. *)
Definition grouped (ms : list (string * match_line)) : files_dict :=
  map (fun k => (k, lines_of k ms)) (first_seen (map fst ms)).

(** The line the loop prints for a kept line. *)
Definition debug_line (root_path line : string) : list string :=
  match line_fields line with
  | Some (filepath, lineno, code) =>
      [("[DEBUG] Match: " ++ Py.path_join root_path filepath ++ ":" ++ lineno
        ++ " -> " ++ Py.strip code)%string]
  | None => []
  end.

(** Step 1 of the parser as the specification words it: split on line
    breaks and discard a trailing empty line produced by a final newline. *)
Fixpoint ends_with_newline (s : string) : bool :=
  match s with
  | String c EmptyString => Ascii.eqb c (ascii_of_nat 10)
  | String _ s' => ends_with_newline s'
  | EmptyString => false
  end.

Definition spec_lines (raw : string) : list string :=
  let lines := Py.split LF None raw in
  if ends_with_newline raw then removelast lines else lines.

(** The highlight splitter as the specification words it: locate the next
    occurrence, emit the text before it unless it is empty, emit the
    keyword, continue past it; at the end emit the tail unless empty.
    [fuel] bounds the number of occurrences. *)
Definition unless_empty (s : string) : list (string * bool) :=
  if s =? "" then [] else [(s, false)].

Fixpoint spec_segments (fuel : nat) (keyword text : string)
  : list (string * bool) :=
  match fuel with
  | O => unless_empty text
  | S f =>
      match str_find keyword text with
      | None => unless_empty text
      | Some i =>
          (unless_empty (take i text)
           ++ (keyword, true)
              :: spec_segments f keyword (drop (i + length keyword) text))%list
      end
  end.

Definition spec_split (text keyword : string) : list (string * bool) :=
  if (keyword =? "") || negb (Py.contains keyword text) then [(text, false)]
  else spec_segments (length text) keyword text.

(** The same with the empty text segments kept, as [str.split] has them. *)
Fixpoint all_segments (fuel : nat) (keyword text : string)
  : list (string * bool) :=
  match fuel with
  | O => [(text, false)]
  | S f =>
      match str_find keyword text with
      | None => [(text, false)]
      | Some i =>
          (take i text, false) :: (keyword, true)
          :: all_segments f keyword (drop (i + length keyword) text)
      end
  end.

Definition is_text_segment_empty (p : string * bool) : bool :=
  negb (snd p) && (fst p =? "").


(** Draw calls laid out from [x] on: each starts where the one before it
    ended. *)
Fixpoint laid_out (width : string -> Z) (x : Z) (calls : list draw) : Prop :=
  match calls with
  | [] => True
  | d :: rest =>
      draw_x d = x /\ laid_out width (x + width (draw_text d))%Z rest
  end.

(** Where the last of the draw calls ends. *)
Fixpoint layout_end (width : string -> Z) (x : Z) (calls : list draw) : Z :=
  match calls with
  | [] => x
  | d :: rest => layout_end width (draw_x d + width (draw_text d))%Z rest
  end.

(** Pens that alternate, the first being red or not as [red] says. *)
Fixpoint alternating (red : bool) (calls : list draw) : bool :=
  match calls with
  | [] => true
  | d :: rest =>
      Bool.eqb (is_red (draw_pen d)) red && alternating (negb red) rest
  end.

Definition red_calls (calls : list draw) : list draw :=
  filter (fun d => is_red (draw_pen d)) calls.

(** The number of match lines a dictionary holds. *)
Fixpoint total_matches (d : files_dict) : nat :=
  match d with
  | [] => 0
  | (_, l) :: d' => List.length l + total_matches d'
  end.

(** The lines the loop keeps. *)
Definition kept_lines (lines : list string) : list string :=
  filter (fun line => match line_fields line with
                      | Some _ => true
                      | None => false
                      end) lines.
(** ** Examples *)

Example split_lines_ex :
  Py.split LF None ("a" ++ LF ++ "b" ++ LF) = ["a"; "b"; ""].
Proof. reflexivity. Qed.

Example split_colon_ex :
  Py.split ":" (Some 2) "a:b:c:d" = ["a"; "b"; "c:d"]
  /\ Py.split ":" (Some 2) "a:b" = ["a"; "b"]
  /\ Py.split ":" (Some 2) "::" = [""; ""; ""]
  /\ Py.split ":" (Some 1) "a:b:c" = ["a"; "b:c"]
  /\ Py.split "at" None "the cat sat" = ["the c"; " s"; ""]
  /\ Py.split "aa" None "aaa" = [""; "a"]
  /\ Py.split LF None "" = [""].
Proof. repeat split; reflexivity. Qed.

Example int_ex :
  Py.int 4300 " 3 " = Some 3%Z /\ Py.int 4300 "-007" = Some (-7)%Z
  /\ Py.int 4300 "1_0" = Some 10%Z /\ Py.int 4300 "1__0" = None
  /\ Py.int 4300 "_1" = None /\ Py.int 4300 "1_" = None
  /\ Py.int 4300 "" = None /\ Py.int 4300 "+" = None
  /\ Py.int 4300 "- 3" = None /\ Py.int 4300 "0x10" = None
  /\ Py.int 4300 "1 2" = None /\ Py.int 4300 "0_7" = Some 7%Z.
Proof. repeat split; reflexivity. Qed.

Example str_of_int_ex :
  Py.str_of_int 0 = "0" /\ Py.str_of_int 42 = "42" /\ Py.str_of_int (-7) = "-7".
Proof. repeat split; reflexivity. Qed.

Example path_join_ex :
  Py.path_join "/sdk" "a.c" = "/sdk/a.c" /\ Py.path_join "/sdk/" "a.c" = "/sdk/a.c"
  /\ Py.path_join "/sdk" "/a.c" = "/a.c" /\ Py.path_join "/sdk" "" = "/sdk/".
Proof. repeat split; reflexivity. Qed.

Example highlight_absent_ex :
  highlight_segments "hello world" "xyz" = [("hello world", false)].
Proof. reflexivity. Qed.

Example parse_scenario_ex :
  parse 4300 "src/eeprom.c:42:void ath9k_hw_eeprom_init(void) {" "/sdk"
  = Next [("/sdk/src/eeprom.c", [(42%Z, "void ath9k_hw_eeprom_init(void) {")])]
         ["[DEBUG] Match: /sdk/src/eeprom.c:42 -> void ath9k_hw_eeprom_init(void) {"].
Proof. reflexivity. Qed.

Example parse_malformed_ex :
  parse 4300 ("noColonHere" ++ LF ++ "only:onecolon" ++ LF) "/sdk" = Next [] [].
Proof. reflexivity. Qed.

Example perform_search_ex :
  perform_search 4300 (fun _ _ => Completed ("a.c:3:foo" ++ LF))
    (Viewer " /sdk " "foo" [TreeItem "/old/x.c" []] None "" [] [] [])
  = Returned
      (Viewer " /sdk " "foo" [TreeItem "/sdk/a.c" [("/sdk/a.c:3", "foo")]]
         (Some "foo") "/sdk"
         ["[INFO] Running: rg --no-ignore --color=never --with-filename --line-number --glob **/*.c --glob **/*.h foo";
          "[INFO] In directory: /sdk"; "[INFO] ripgrep output:";
          "a.c:3:foo" ++ LF; "[DEBUG] Match: /sdk/a.c:3 -> foo"]
         [(rg_command "foo", "/sdk")] []).
Proof. reflexivity. Qed.
(** ** Strings *)

Lemma append_empty_r (s : string) : s ++ "" = s.
Proof. induction s as [|c s IH]; simpl; [reflexivity | now rewrite IH]. Qed.

Lemma append_assoc (a b c : string) : (a ++ b) ++ c = a ++ (b ++ c).
Proof. induction a as [|x a IH]; simpl; [reflexivity | now rewrite IH]. Qed.

Lemma length_append (a b : string) :
  length (a ++ b) = (length a + length b)%nat.
Proof. induction a as [|x a IH]; simpl; [reflexivity | now rewrite IH]. Qed.

Lemma prefix_cons (d c : ascii) (p s : string) :
  prefix (String d p) (String c s) = if ascii_dec d c then prefix p s else false.
Proof. reflexivity. Qed.

Lemma prefix_of_empty (p : string) :
  prefix p "" = match p with EmptyString => true | String _ _ => false end.
Proof. reflexivity. Qed.

Lemma prefix_append (p r : string) : prefix p (p ++ r) = true.
Proof.
  induction p as [|c p IH]; simpl.
  - now destruct r.
  - destruct (ascii_dec c c) as [_|n]; [exact IH | now destruct n].
Qed.

Lemma prefix_drop (p s : string) :
  prefix p s = true -> s = p ++ drop (length p) s.
Proof.
  revert s; induction p as [|c p IH]; intros s H; simpl.
  - now destruct s.
  - destruct s as [|d s]; simpl in H; [discriminate|].
    destruct (ascii_dec c d) as [->|]; [|discriminate].
    now rewrite <- (IH s H).
Qed.

Lemma prefix_empty (s : string) : prefix "" s = true.
Proof. now destruct s. Qed.

Lemma take_drop (n : nat) (s : string) : take n s ++ drop n s = s.
Proof.
  revert s; induction n as [|n IH]; intros [|c s]; simpl; try reflexivity.
  now rewrite IH.
Qed.

Lemma length_drop (n : nat) (s : string) :
  length (drop n s) = (length s - n)%nat.
Proof.
  revert s; induction n as [|n IH]; intros [|c s]; simpl; auto.
Qed.

Lemma drop_append (a b : string) : drop (length a) (a ++ b) = b.
Proof. induction a as [|c a IH]; simpl; [now destruct b | exact IH]. Qed.

Lemma take_append (a b : string) : take (length a) (a ++ b) = a.
Proof.
  induction a as [|c a IH]; simpl; [now destruct b | now rewrite IH].
Qed.

Arguments prefix : simpl never.

(** ** [str.find] and [in] *)

Lemma find_none_contains (sep s : string) :
  str_find sep s = None <-> Py.contains sep s = false.
Proof.
  induction s as [|c s IH]; simpl.
  - rewrite prefix_of_empty. destruct sep; simpl; split; intro H;
      solve [discriminate H | reflexivity].
  - destruct (prefix sep (String c s)); simpl.
    + split; intro H; discriminate H.
    + destruct (str_find sep s); simpl; split; intro H.
      * discriminate H.
      * apply IH in H; discriminate H.
      * now apply IH.
      * reflexivity.
Qed.

Lemma find_some_split (sep s : string) (i : nat) :
  str_find sep s = Some i ->
  s = take i s ++ sep ++ drop (i + length sep) s.
Proof.
  revert i; induction s as [|c s IH]; intros i; simpl.
  - rewrite prefix_of_empty. destruct sep; simpl; [|discriminate].
    intros [= <-]; reflexivity.
  - destruct (prefix sep (String c s)) eqn:P.
    + intros [= <-]; simpl. exact (prefix_drop _ _ P).
    + destruct (str_find sep s) as [j|]; simpl; [|discriminate].
      intros [= <-]; simpl. now rewrite <- (IH j eq_refl).
Qed.

Lemma find_some_length_take (sep s : string) (i : nat) :
  str_find sep s = Some i -> length (take i s) = i.
Proof.
  revert i; induction s as [|c s IH]; intros i; simpl.
  - destruct (prefix sep ""); [intros [= <-]; reflexivity | discriminate].
  - destruct (prefix sep (String c s)); [intros [= <-]; reflexivity|].
    destruct (str_find sep s) as [j|]; simpl; [|discriminate].
    intros [= <-]; simpl. now rewrite (IH j eq_refl).
Qed.

Lemma find_some_lt (sep s : string) (i : nat) :
  str_find sep s = Some i -> (i + length sep <= length s)%nat.
Proof.
  intros H. pose proof (find_some_split _ _ _ H) as E.
  apply (f_equal length) in E. rewrite !length_append in E.
  rewrite (find_some_length_take _ _ _ H) in E. lia.
Qed.

(** ** [str.split] *)

Lemma split_from_skip (sep u s : string) (m : option nat) :
  Py.split_from sep m (length u) (u ++ s) = Py.split_from sep m O s.
Proof.
  induction u as [|c u IH]; simpl; [reflexivity | exact IH].
Qed.

Lemma split_from_not_nil (sep s : string) (m : option nat) (k : nat) :
  Py.split_from sep m k s <> [].
Proof.
  revert m k; induction s as [|c s IH]; intros m k; simpl; [discriminate|].
  destruct k; [|apply IH].
  destruct (Py.can_split m && prefix sep (String c s)); [discriminate|].
  destruct (Py.split_from sep m 0 s) eqn:E; discriminate.
Qed.

Lemma split_no_budget (sep s : string) (m : option nat) :
  Py.can_split m = false -> Py.split sep m s = [s].
Proof.
  unfold Py.split. intros H.
  induction s as [|c s IH]; simpl; [reflexivity|].
  now rewrite H, IH.
Qed.

Lemma split_absent (sep s : string) (m : option nat) :
  str_find sep s = None -> Py.split sep m s = [s].
Proof.
  unfold Py.split.
  induction s as [|c s IH]; simpl; [reflexivity|].
  destruct (prefix sep (String c s)); [discriminate|].
  destruct (str_find sep s); simpl; [discriminate|]. intros _.
  now rewrite andb_false_r, IH.
Qed.

Lemma split_at_find (sep s : string) (m : option nat) (i : nat) :
  sep <> "" -> Py.can_split m = true -> str_find sep s = Some i ->
  Py.split sep m s
  = take i s :: Py.split sep (Py.one_less m) (drop (i + length sep) s).
Proof.
  unfold Py.split. intros Hsep Hm. revert i.
  induction s as [|c s IH]; intros i; simpl.
  - rewrite prefix_of_empty. destruct sep; [now destruct Hsep | discriminate].
  - rewrite Hm; simpl. destruct (prefix sep (String c s)) eqn:P.
    + intros [= <-]. simpl take. f_equal.
      destruct sep as [|d sep]; [now destruct Hsep|].
      rewrite prefix_cons in P.
      destruct (ascii_dec d c) as [->|]; [|discriminate].
      apply prefix_drop in P. simpl.
      rewrite P at 1. apply split_from_skip.
    + destruct (str_find sep s) as [j|]; simpl; [|discriminate].
      intros [= <-]. now rewrite (IH j eq_refl).
Qed.

(** [sep.join(s.split(sep, maxsplit)) == s]. *)
Lemma join_split (sep : string) (m : option nat) (s : string) :
  sep <> "" -> Py.join sep (Py.split sep m s) = s.
Proof.
  intros Hsep. remember (length s) as n eqn:Hn.
  revert s m Hn. induction n as [n IH] using lt_wf_ind. intros s m Hn.
  destruct (Py.can_split m) eqn:Hm.
  - destruct (str_find sep s) as [i|] eqn:F.
    + rewrite (split_at_find _ _ _ _ Hsep Hm F).
      pose proof (find_some_lt _ _ _ F) as L.
      assert (0 < length sep)%nat by (destruct sep; simpl; [congruence|lia]).
      unfold Py.join in *. simpl.
      destruct (Py.split sep (Py.one_less m) (drop (i + length sep) s)) eqn:E.
      * now apply split_from_not_nil in E.
      * rewrite <- E.
        rewrite (IH (length (drop (i + length sep) s))); try reflexivity.
        -- symmetry; apply find_some_split; exact F.
        -- rewrite length_drop; lia.
    + now rewrite (split_absent _ _ _ F).
  - now rewrite (split_no_budget _ _ _ Hm).
Qed.

(** ** The keyword painter *)

Lemma prefix_take (p s : string) (n : nat) :
  prefix p (take n s) = true -> prefix p s = true.
Proof.
  revert s n; induction p as [|d p IH]; intros s n H.
  - apply prefix_empty.
  - destruct n as [|n], s as [|c s]; simpl in H;
      try (rewrite prefix_of_empty in H; discriminate H).
    rewrite prefix_cons in *.
    destruct (ascii_dec d c); [now apply (IH s n) | discriminate].
Qed.

(** The text before the leftmost occurrence holds no occurrence. *)
Lemma find_some_take_absent (sep s : string) (i : nat) :
  sep <> "" -> str_find sep s = Some i -> Py.contains sep (take i s) = false.
Proof.
  intros Hsep. revert i; induction s as [|c s IH]; intros i; simpl.
  - rewrite prefix_of_empty. destruct sep; [now destruct Hsep | discriminate].
  - destruct (prefix sep (String c s)) eqn:P.
    + intros [= <-]. simpl. rewrite prefix_of_empty.
      destruct sep; [now destruct Hsep | reflexivity].
    + destruct (str_find sep s) as [j|]; simpl; [|discriminate].
      intros [= <-]. simpl. rewrite (IH j eq_refl), orb_false_r.
      destruct (prefix sep (String c (take j s))) eqn:Q; [|reflexivity].
      apply (prefix_take sep (String c s) (S j)) in Q. congruence.
Qed.

(** The drawing loop over [text.split(keyword)] follows the leftmost
    occurrences of the keyword one after the other. *)
Lemma draw_split_segments (width : string -> Z) (keyword : string) :
  keyword <> "" ->
  forall (fuel : nat) (text : string) (x : Z),
    (length text <= fuel)%nat ->
    map seg_of_draw
        (draw_segments width keyword x (Py.split keyword None text))
    = all_segments fuel keyword text.
Proof.
  intros Hk. induction fuel as [|fuel IH]; intros text x L.
  - destruct text; [reflexivity | simpl in L; lia].
  - simpl. destruct (str_find keyword text) as [i|] eqn:F.
    + rewrite (split_at_find _ _ None _ Hk eq_refl F). simpl Py.one_less.
      pose proof (find_some_lt _ _ _ F) as Lt.
      assert (0 < length keyword)%nat
        by (destruct keyword; simpl; [congruence | lia]).
      simpl.
      destruct (Py.split keyword None (drop (i + length keyword) text)) eqn:E.
      * now apply split_from_not_nil in E.
      * rewrite <- E. unfold seg_of_draw at 1 2. simpl. do 2 f_equal.
        apply IH. rewrite length_drop. lia.
    + now rewrite (split_absent _ _ _ F).
Qed.

Lemma concat_empty_cons (a : string) (l : list string) :
  concat "" (a :: l) = a ++ concat "" l.
Proof. destruct l; simpl; [now rewrite append_empty_r | reflexivity]. Qed.

Lemma all_segments_concat (keyword : string) (fuel : nat) (text : string) :
  concat "" (map fst (all_segments fuel keyword text)) = text.
Proof.
  revert text; induction fuel as [|fuel IH]; intros text; simpl.
  - reflexivity.
  - destruct (str_find keyword text) as [i|] eqn:F; [|reflexivity].
    simpl map. rewrite !concat_empty_cons, IH.
    symmetry. exact (find_some_split _ _ _ F).
Qed.

Lemma all_segments_filter (keyword : string) (fuel : nat) (text : string) :
  filter (fun p => negb (is_text_segment_empty p))
         (all_segments fuel keyword text)
  = spec_segments fuel keyword text.
Proof.
  assert (U : forall s, filter (fun p => negb (is_text_segment_empty p))
                               [(s, false)] = unless_empty s).
  { intros s. unfold unless_empty, is_text_segment_empty. simpl.
    now destruct (s =? ""). }
  revert text; induction fuel as [|fuel IH]; intros text.
  - apply U.
  - simpl. destruct (str_find keyword text) as [i|]; [|apply U].
    change ((take i text, false) :: (keyword, true)
            :: all_segments fuel keyword (drop (i + length keyword) text))
      with ([(take i text, false)]
            ++ (keyword, true)
               :: all_segments fuel keyword (drop (i + length keyword) text))%list.
    rewrite filter_app, U. f_equal.
    simpl. now rewrite IH.
Qed.

Lemma all_segments_flags (keyword : string) (fuel : nat) (text s : string) :
  keyword <> "" -> (length text <= fuel)%nat ->
  (In (s, true) (all_segments fuel keyword text) -> s = keyword)
  /\ (In (s, false) (all_segments fuel keyword text) ->
      Py.contains keyword s = false).
Proof.
  intros Hk. revert text; induction fuel as [|fuel IH]; intros text L.
  - destruct text; [|simpl in L; lia]. simpl.
    split; intros [H|[]]; [discriminate|]. injection H as <-.
    simpl. rewrite prefix_of_empty.
    destruct keyword; [now destruct Hk | reflexivity].
  - simpl. destruct (str_find keyword text) as [i|] eqn:F; simpl.
    + pose proof (find_some_lt _ _ _ F) as Lt.
      assert (Hpos : (0 < length keyword)%nat)
        by (destruct keyword; simpl; [congruence | lia]).
      destruct (IH (drop (i + length keyword) text)) as [IH1 IH2].
      { rewrite length_drop; lia. }
      split.
      * intros [H|[H|H]]; [discriminate | congruence | now apply IH1].
      * intros [H|[H|H]]; [|discriminate | now apply IH2].
        injection H as <-. now apply (find_some_take_absent _ text).
    + split; intros [H|[]]; [discriminate|]. injection H as <-.
      now apply find_none_contains.
Qed.

(** ** Splitting a line on colons *)

Lemma prefix_colon (c : ascii) (s : string) :
  prefix ":" (String c s) = Ascii.eqb c ":"%char.
Proof.
  rewrite prefix_cons, prefix_empty.
  destruct (ascii_dec ":"%char c) as [<-|n]; [reflexivity|].
  symmetry. apply Ascii.eqb_neq. congruence.
Qed.

Lemma find_colon (s : string) :
  match str_find ":" s with
  | None => colons s = 0%nat
  | Some i =>
      colons (take i s) = 0%nat /\ colons s = S (colons (drop (i + 1) s))
  end.
Proof.
  unfold colons. induction s as [|c s IH]; simpl; [reflexivity|].
  rewrite prefix_colon. destruct (Ascii.eqb c ":"%char) eqn:E; simpl.
  - auto.
  - destruct (str_find ":" s) as [i|]; simpl; [|exact IH].
    now rewrite E.
Qed.

Lemma contains_colon (s : string) :
  Py.contains ":" s = negb (colons s =? 0)%nat.
Proof.
  pose proof (find_colon s) as H.
  destruct (str_find ":" s) as [i|] eqn:F.
  - destruct H as [_ ->]. simpl.
    destruct (Py.contains ":" s) eqn:C; [reflexivity|].
    apply find_none_contains in C. congruence.
  - rewrite H. simpl. now apply find_none_contains.
Qed.

Lemma colon_not_empty : ":" <> "".
Proof. discriminate. Qed.

(** [maxsplit] bounds the number of parts. *)
Lemma split_from_length (sep s : string) (m k : nat) :
  (List.length (Py.split_from sep (Some m) k s) <= S m)%nat.
Proof.
  revert m k; induction s as [|c s IH]; intros m k; [simpl; lia|].
  destruct k as [|k]; [|apply IH].
  destruct m as [|m]; simpl.
  - specialize (IH O O).
    destruct (Py.split_from sep (Some O) 0 s); simpl in *; lia.
  - destruct (prefix sep (String c s)).
    + specialize (IH m (Nat.pred (length sep))). simpl. lia.
    + specialize (IH (S m) O).
      destruct (Py.split_from sep (Some (S m)) 0 s); simpl in *; lia.
Qed.

(** A line with fewer than two colons has fewer than three parts, and one
    with two or more is cut at its first two colons. *)
Lemma split_colon_few (line : string) :
  (colons line < 2)%nat ->
  (List.length (Py.split ":" (Some 2) line) < 3)%nat.
Proof.
  intros H. pose proof (find_colon line) as F.
  destruct (str_find ":" line) as [i|] eqn:E.
  - rewrite (split_at_find ":" line (Some 2) i colon_not_empty eq_refl E).
    destruct F as [_ F]. simpl Py.one_less. simpl List.length.
    pose proof (find_colon (drop (i + 1) line)) as G.
    destruct (str_find ":" (drop (i + 1) line)) eqn:E2.
    + destruct G as [_ G]. lia.
    + change (i + length ":")%nat with (i + 1)%nat.
      rewrite (split_absent _ _ _ E2). simpl; lia.
  - rewrite (split_absent _ _ _ E). simpl; lia.
Qed.

Lemma split_colon_three (line : string) :
  (2 <= colons line)%nat ->
  exists a b c,
    line = a ++ ":" ++ b ++ ":" ++ c
    /\ colons a = 0%nat /\ colons b = 0%nat
    /\ colons c = (colons line - 2)%nat
    /\ Py.split ":" (Some 2) line = [a; b; c].
Proof.
  intros H. pose proof (find_colon line) as F.
  destruct (str_find ":" line) as [i|] eqn:E; [|lia].
  destruct F as [Fa Fl].
  pose proof (find_colon (drop (i + 1) line)) as G.
  destruct (str_find ":" (drop (i + 1) line)) as [j|] eqn:E2; [|lia].
  destruct G as [Gb Gl].
  exists (take i line), (take j (drop (i + 1) line)),
         (drop (j + 1) (drop (i + 1) line)).
  repeat split; try assumption; try lia.
  - pose proof (find_some_split ":" _ j E2) as D2.
    pose proof (find_some_split ":" _ i E) as D1.
    change (j + length ":")%nat with (j + 1)%nat in D2.
    change (i + length ":")%nat with (i + 1)%nat in D1.
    rewrite <- D2. exact D1.
  - rewrite (split_at_find ":" line (Some 2) i colon_not_empty eq_refl E).
    change (i + length ":")%nat with (i + 1)%nat. simpl Py.one_less.
    rewrite (split_at_find ":" _ (Some 1) j colon_not_empty eq_refl E2).
    change (j + length ":")%nat with (j + 1)%nat. simpl Py.one_less.
    now rewrite split_no_budget.
Qed.

Lemma line_fields_few (line : string) :
  (colons line < 2)%nat -> line_fields line = None.
Proof.
  intros H. unfold line_fields.
  destruct (Py.contains ":" line); [|reflexivity].
  pose proof (split_colon_few line H) as L.
  destruct (Py.split ":" (Some 2) line) as [|a [|b [|c [|d r]]]];
    simpl in L; try reflexivity; lia.
Qed.

Lemma line_fields_three (line : string) :
  (2 <= colons line)%nat ->
  exists a b c,
    line = a ++ ":" ++ b ++ ":" ++ c
    /\ colons a = 0%nat /\ colons b = 0%nat
    /\ Py.split ":" (Some 2) line = [a; b; c]
    /\ line_fields line = Some (a, b, c).
Proof.
  intros H. destruct (split_colon_three line H) as (a & b & c & E & A & B & _ & S).
  exists a, b, c. repeat split; try assumption.
  unfold line_fields. rewrite contains_colon, S.
  destruct (colons line); [lia | reflexivity].
Qed.


(** ** The [files] dictionary *)

Lemma dict_mem_keys (k : string) (d : files_dict) :
  dict_mem k d = has_key k (map fst d).
Proof.
  induction d as [|[k' l] d IH]; simpl; [reflexivity | now rewrite IH].
Qed.

Lemma keys_dict_append (k : string) (v : match_line) (d : files_dict) :
  map fst (dict_append k v d) = map fst d.
Proof.
  induction d as [|[k' l] d IH]; simpl; [reflexivity|].
  destruct (k' =? k); simpl; [reflexivity | now rewrite IH].
Qed.

Lemma keys_dict_add (k : string) (v : match_line) (d : files_dict) :
  map fst (dict_add k v d)
  = if dict_mem k d then map fst d else (map fst d ++ [k])%list.
Proof.
  unfold dict_add, dict_new. rewrite keys_dict_append.
  destruct (dict_mem k d); [reflexivity|].
  now rewrite map_app.
Qed.

Lemma has_key_app (k : string) (a b : list string) :
  has_key k (a ++ b) = has_key k a || has_key k b.
Proof. apply existsb_app. Qed.

Lemma has_key_filter (k a : string) (l : list string) :
  has_key k (filter (fun k' => negb (k' =? a)) l)
  = negb (k =? a) && has_key k l.
Proof.
  induction l as [|x l IH]; simpl; [now rewrite andb_false_r|].
  destruct (x =? a) eqn:Exa; simpl.
  - rewrite IH. destruct (x =? k) eqn:Exk; simpl; [|reflexivity].
    apply String.eqb_eq in Exa, Exk. subst.
    now rewrite String.eqb_refl.
  - rewrite IH. destruct (x =? k) eqn:Exk; simpl; [|reflexivity].
    apply String.eqb_eq in Exk. subst. now rewrite Exa.
Qed.

Lemma has_key_first_seen (k : string) (l : list string) :
  has_key k (first_seen l) = has_key k l.
Proof.
  induction l as [|a l IH]; simpl; [reflexivity|].
  rewrite has_key_filter, IH, (String.eqb_sym k a).
  now destruct (a =? k).
Qed.

Lemma first_seen_snoc (k : string) (l : list string) :
  first_seen (l ++ [k])
  = if has_key k l then first_seen l else (first_seen l ++ [k])%list.
Proof.
  induction l as [|a l IH]; simpl; [reflexivity|].
  rewrite IH. destruct (a =? k) eqn:E; simpl.
  - apply String.eqb_eq in E. subst a.
    destruct (has_key k l); [reflexivity|].
    rewrite filter_app. simpl. rewrite String.eqb_refl. simpl.
    now rewrite app_nil_r.
  - destruct (has_key k l); [reflexivity|].
    rewrite filter_app. simpl. rewrite String.eqb_sym, E. reflexivity.
Qed.

Lemma first_seen_nodup (l : list string) : NoDup (first_seen l).
Proof.
  induction l as [|a l IH]; simpl; constructor.
  - intros H. apply filter_In in H. destruct H as [_ H].
    now rewrite String.eqb_refl in H.
  - now apply NoDup_filter.
Qed.

Lemma lines_of_snoc (k k' : string) (v : match_line)
    (ms : list (string * match_line)) :
  lines_of k' (ms ++ [(k, v)])
  = (lines_of k' ms ++ if k =? k' then [v] else [])%list.
Proof.
  unfold lines_of. rewrite filter_app, map_app. simpl.
  now destruct (k =? k').
Qed.

(** Appending under a key of a dictionary built from a duplicate-free key
    list touches that key's entry only. *)
Lemma dict_append_map (k : string) (v : match_line)
    (g : string -> list match_line) (ks : list string) :
  NoDup ks ->
  dict_append k v (map (fun x => (x, g x)) ks)
  = map (fun x => (x, (g x ++ if k =? x then [v] else [])%list)) ks.
Proof.
  induction ks as [|a ks IH]; intros N; simpl; [reflexivity|].
  inversion N as [|? ? Na Nks]; subst.
  rewrite (String.eqb_sym k a). destruct (a =? k) eqn:E.
  - apply String.eqb_eq in E. subst a. f_equal.
    apply map_ext_in. intros x Hx.
    destruct (k =? x) eqn:F; [|now rewrite app_nil_r].
    apply String.eqb_eq in F. now subst x.
  - rewrite app_nil_r. f_equal. now apply IH.
Qed.

Lemma dict_add_grouped (k : string) (v : match_line)
    (ms : list (string * match_line)) :
  dict_add k v (grouped ms) = grouped (ms ++ [(k, v)]).
Proof.
  unfold dict_add, grouped, dict_new.
  rewrite dict_mem_keys, map_map. simpl. rewrite map_id.
  rewrite map_app. simpl. rewrite first_seen_snoc, has_key_first_seen.
  destruct (has_key k (map fst ms)) eqn:M.
  - rewrite dict_append_map by apply first_seen_nodup.
    apply map_ext. intros x. now rewrite lines_of_snoc.
  - assert (K : lines_of k ms = []).
    { unfold lines_of. clear -M. induction ms as [|[a l] ms IH]; simpl in *;
        [reflexivity|]. apply orb_false_elim in M. destruct M as [-> M].
      now apply IH. }
    rewrite <- K.
    change ((map (fun x => (x, lines_of x ms)) (first_seen (map fst ms))
             ++ [(k, lines_of k ms)])%list)
      with ((map (fun x => (x, lines_of x ms)) (first_seen (map fst ms))
             ++ map (fun x => (x, lines_of x ms)) [k])%list).
    rewrite <- map_app.
    rewrite dict_append_map.
    + apply map_ext. intros x. now rewrite lines_of_snoc.
    + pose proof (first_seen_nodup (map fst ms ++ [k])) as N.
      now rewrite first_seen_snoc, M in N.
Qed.

Lemma fold_dict_add_grouped (ms : list (string * match_line)) :
  fold_left (fun d m => dict_add (fst m) (snd m) d) ms [] = grouped ms.
Proof.
  induction ms as [|[k v] ms IH] using rev_ind; [reflexivity|].
  rewrite fold_left_app. simpl. rewrite IH. apply dict_add_grouped.
Qed.

Lemma grouped_keys (ms : list (string * match_line)) :
  map fst (grouped ms) = first_seen (map fst ms).
Proof. unfold grouped. rewrite map_map. simpl. apply map_id. Qed.

Lemma grouped_entry (ms : list (string * match_line)) (k : string)
    (ls : list match_line) :
  In (k, ls) (grouped ms) <->
  has_key k (map fst ms) = true /\ ls = lines_of k ms.
Proof.
  unfold grouped. rewrite in_map_iff. split.
  - intros (x & E & H). injection E as -> <-. split; [|reflexivity].
    rewrite <- has_key_first_seen. apply existsb_exists.
    exists k. split; [exact H | apply String.eqb_refl].
  - intros [H ->]. exists k. split; [reflexivity|].
    rewrite <- has_key_first_seen in H. apply existsb_exists in H.
    destruct H as (x & H & E). apply String.eqb_eq in E. now subst x.
Qed.

Lemma lines_of_in (ms : list (string * match_line)) (k : string)
    (v : match_line) :
  In v (lines_of k ms) <-> In (k, v) ms.
Proof.
  unfold lines_of. rewrite in_map_iff. split.
  - intros ([k' v'] & E & H). simpl in E. subst v'.
    apply filter_In in H. destruct H as [H F]. simpl in F.
    apply String.eqb_eq in F. now subst k'.
  - intros H. exists (k, v). split; [reflexivity|].
    apply filter_In. split; [exact H | apply String.eqb_refl].
Qed.

(** ** The parsing loop *)

Section Loop.

Variable limit : nat.
Variable root : string.

Lemma loop_body_fields (line : string) (files : files_dict)
    (out : list string) :
  loop_body limit root line files out
  = match line_fields line with
    | None => Next files out
    | Some (filepath, lineno, code) =>
        match Py.int limit lineno with
        | None => Fail ValueError out
        | Some n =>
            Next (dict_add (Py.path_join root filepath) (n, Py.strip code) files)
                 (out ++ debug_line root line)
        end
    end.
Proof.
  unfold loop_body, debug_line, line_fields, dict_add.
  destruct (Py.contains ":" line); simpl; [|reflexivity].
  pose proof (split_from_length ":" line 2 0) as L. fold (Py.split ":" (Some 2) line) in L.
  destruct (Py.split ":" (Some 2) line) as [|a [|b [|c [|d r]]]];
    simpl in L; try reflexivity; lia.
Qed.

Lemma loop_body_skip (line : string) (files : files_dict) (out : list string) :
  line_fields line = None -> loop_body limit root line files out = Next files out.
Proof. intros H. now rewrite loop_body_fields, H. Qed.

Lemma loop_body_match (line k : string) (v : match_line)
    (files : files_dict) (out : list string) :
  line_match limit root line = Some (k, v) ->
  loop_body limit root line files out
  = Next (dict_add k v files) (out ++ debug_line root line).
Proof.
  unfold line_match. intros H. rewrite loop_body_fields.
  destruct (line_fields line) as [[[a b] c]|]; [|discriminate].
  destruct (Py.int limit b); [|discriminate].
  now injection H as <- <-.
Qed.

Lemma loop_body_raise (line a b c : string) (files : files_dict)
    (out : list string) :
  line_fields line = Some (a, b, c) -> Py.int limit b = None ->
  loop_body limit root line files out = Fail ValueError out.
Proof. intros H I. now rewrite loop_body_fields, H, I. Qed.

Lemma parse_loop_app (l1 l2 : list string) (files : files_dict)
    (out : list string) :
  parse_loop limit root (l1 ++ l2) files out
  = match parse_loop limit root l1 files out with
    | Next files' out' => parse_loop limit root l2 files' out'
    | Fail e out' => Fail e out'
    end.
Proof.
  revert files out; induction l1 as [|l l1 IH]; intros files out; simpl;
    [reflexivity|].
  destruct (loop_body limit root l files out); [apply IH | reflexivity].
Qed.

Lemma parse_loop_ok (lines : list string) (files : files_dict)
    (out : list string) :
  Forall (line_ok limit) lines ->
  parse_loop limit root lines files out
  = Next (fold_left (fun d m => dict_add (fst m) (snd m) d)
                    (matches_of limit root lines) files)
         (out ++ flat_map (debug_line root) lines).
Proof.
  intros H. revert files out.
  induction H as [|line lines Hl _ IH]; intros files out; simpl.
  - now rewrite app_nil_r.
  - rewrite loop_body_fields. unfold line_match, debug_line.
    destruct (line_fields line) as [[[a b] c]|] eqn:F.
    + pose proof (Hl a b c F) as Hb.
      destruct (Py.int limit b) as [n|]; [|now destruct Hb].
      rewrite IH. simpl. now rewrite <- app_assoc.
    + apply IH.
Qed.

Lemma parse_loop_next (lines : list string) (files files' : files_dict)
    (out out' : list string) :
  parse_loop limit root lines files out = Next files' out' ->
  Forall (line_ok limit) lines.
Proof.
  revert files out; induction lines as [|line lines IH]; intros files out H;
    constructor; simpl in H; rewrite loop_body_fields in H.
  - intros a b c F I. rewrite F, I in H. discriminate H.
  - destruct (line_fields line) as [[[a b] c]|]; [|now apply IH in H].
    destruct (Py.int limit b); [now apply IH in H | discriminate H].
Qed.

Lemma parse_loop_raise (lines : list string) (files : files_dict)
    (out : list string) :
  ~ Forall (line_ok limit) lines ->
  exists out', parse_loop limit root lines files out = Fail ValueError out'.
Proof.
  intros H.
  destruct (parse_loop limit root lines files out) as [f o|e o] eqn:P.
  - now apply parse_loop_next in P.
  - exists o. f_equal.
    clear H. revert files out P.
    induction lines as [|line lines IH]; intros files out; simpl;
      [discriminate|].
    rewrite loop_body_fields.
    destruct (line_fields line) as [[[a b] c]|].
    + destruct (Py.int limit b); [apply IH | now intros [= <- _]].
    + apply IH.
Qed.

End Loop.

(** ** [str.strip] *)

Lemma lstrip_all_space (ws : string) : all_space ws = true -> Py.lstrip ws = "".
Proof.
  induction ws as [|c ws IH]; simpl; [reflexivity|].
  destruct (Py.isspace c); [exact IH | discriminate].
Qed.

Lemma rstrip_all_space (ws : string) : all_space ws = true -> Py.rstrip ws = "".
Proof.
  induction ws as [|c ws IH]; simpl; [reflexivity|].
  destruct (Py.isspace c); [|discriminate].
  intros H. now rewrite (IH H).
Qed.

Lemma lstrip_decompose (s : string) :
  exists ws, s = ws ++ Py.lstrip s /\ all_space ws = true
             /\ starts_with_space (Py.lstrip s) = false.
Proof.
  induction s as [|c s (ws & E & A & B)]; simpl.
  - exists "". auto.
  - destruct (Py.isspace c) eqn:C.
    + exists (String c ws). simpl. rewrite C, A. repeat split; [|exact B].
      now rewrite <- E.
    + exists "". simpl. auto.
Qed.

Lemma rstrip_decompose (s : string) :
  exists ws, s = Py.rstrip s ++ ws /\ all_space ws = true
             /\ ends_with_space (Py.rstrip s) = false.
Proof.
  induction s as [|c s (ws & E & A & B)]; simpl.
  - exists "". auto.
  - destruct (Py.rstrip s) as [|d r] eqn:R.
    + destruct (Py.isspace c) eqn:C.
      * exists (String c ws). simpl in *. rewrite C, A. repeat split.
        now f_equal.
      * exists ws. simpl in *. rewrite C. repeat split; [|exact A].
        now f_equal.
    + exists ws. repeat split; [|exact A|exact B].
      change (String c s = String c (String d r ++ ws)). now f_equal.
Qed.

Lemma rstrip_keeps_start (s : string) :
  starts_with_space s = false -> starts_with_space (Py.rstrip s) = false.
Proof.
  destruct s as [|c s]; simpl; [reflexivity|]. intros C.
  destruct (Py.rstrip s); [|exact C]. now rewrite C.
Qed.

Lemma strip_decompose (s : string) :
  exists ws1 ws2,
    s = ws1 ++ Py.strip s ++ ws2
    /\ all_space ws1 = true /\ all_space ws2 = true
    /\ trimmed (Py.strip s) = true.
Proof.
  destruct (lstrip_decompose s) as (ws1 & E1 & A1 & B1).
  destruct (rstrip_decompose (Py.lstrip s)) as (ws2 & E2 & A2 & B2).
  exists ws1, ws2. unfold Py.strip, trimmed.
  rewrite <- E2, <- E1, B2, (rstrip_keeps_start _ B1). auto.
Qed.

Lemma lstrip_app_space (ws s : string) :
  all_space ws = true -> Py.lstrip (ws ++ s) = Py.lstrip s.
Proof.
  induction ws as [|c ws IH]; simpl; [reflexivity|].
  destruct (Py.isspace c); [exact IH | discriminate].
Qed.

Lemma lstrip_id (s : string) : starts_with_space s = false -> Py.lstrip s = s.
Proof. destruct s as [|c s]; simpl; [reflexivity | now intros ->]. Qed.

Lemma rstrip_app_space (s ws : string) :
  all_space ws = true -> Py.rstrip (s ++ ws) = Py.rstrip s.
Proof.
  intros A. induction s as [|c s IH]; simpl.
  - now apply rstrip_all_space.
  - now rewrite IH.
Qed.

Lemma rstrip_id (s : string) : ends_with_space s = false -> Py.rstrip s = s.
Proof.
  induction s as [|c s IH]; [reflexivity|].
  destruct s as [|d s].
  - simpl. now intros ->.
  - intros H. change (ends_with_space (String d s) = false) in H.
    change (Py.rstrip (String c (String d s)))
      with (match Py.rstrip (String d s) with
            | "" => if Py.isspace c then "" else String c ""
            | r => String c r
            end).
    now rewrite (IH H).
Qed.

(** [strip] is the only way to cut whitespace off both ends. *)
Lemma strip_unique (ws1 body ws2 : string) :
  all_space ws1 = true -> all_space ws2 = true -> trimmed body = true ->
  Py.strip (ws1 ++ body ++ ws2) = body.
Proof.
  unfold trimmed, Py.strip. intros A1 A2 T.
  apply andb_prop in T. destruct T as [T1 T2].
  apply negb_true_iff in T1, T2.
  rewrite (lstrip_app_space _ _ A1).
  destruct body as [|c body].
  - simpl. now rewrite (lstrip_all_space _ A2).
  - rewrite lstrip_id by exact T1.
    rewrite (rstrip_app_space _ _ A2). now apply rstrip_id.
Qed.

(** ** [int] on plain decimal integers *)

Lemma digit_facts (c : ascii) :
  Py.is_digit c = true ->
  Py.int_space c = false /\ Py.is_underscore c = false
  /\ Ascii.eqb c "+"%char = false /\ Ascii.eqb c "-"%char = false.
Proof.
  destruct c as [[] [] [] [] [] [] [] []]; vm_compute; intros H;
    solve [discriminate H | auto].
Qed.

Lemma sign_not_space (c : ascii) :
  Ascii.eqb c "+"%char || Ascii.eqb c "-"%char = true -> Py.int_space c = false.
Proof.
  destruct c as [[] [] [] [] [] [] [] []]; vm_compute; intros H;
    solve [discriminate H | auto].
Qed.

Lemma scan_all_digits (ds : string) (acc : Z) (count : nat) :
  all_digits ds = true ->
  exists v, Py.scan_digits ds false acc count
            = Some (v, (count + length ds)%nat, "").
Proof.
  revert acc count; induction ds as [|c ds IH]; intros acc count;
    cbn [Py.scan_digits all_digits length].
  - intros _. exists acc. now rewrite Nat.add_0_r.
  - intros H. apply andb_prop in H. destruct H as [D H]. rewrite D.
    destruct (IH (10 * acc + Py.digit_value c)%Z (S count) H) as [v E].
    exists v. rewrite E. do 3 f_equal. lia.
Qed.

Lemma int_decimal_literal (limit : nat) (s : string) :
  decimal_literal s = true -> within_digit_limit limit s = true ->
  exists n, Py.int limit s = Some n.
Proof.
  unfold decimal_literal, within_digit_limit. intros H W.
  apply andb_prop in H. destruct H as [N D].
  apply negb_true_iff in N. apply String.eqb_neq in N.
  apply negb_true_iff in W.
  assert (R : exists neg, Py.read_sign (Py.skip_int_space s)
                          = (neg, unsigned_part s)).
  { destruct s as [|c r]; [now destruct N|].
    simpl in *. destruct (Ascii.eqb c "+"%char) eqn:P.
    - rewrite (sign_not_space c) by now rewrite P.
      simpl. rewrite P. now exists false.
    - destruct (Ascii.eqb c "-"%char) eqn:M.
      + rewrite (sign_not_space c) by now rewrite P, M.
        simpl. rewrite P, M. now exists true.
      + simpl in D. apply andb_prop in D. destruct D as [D _].
        destruct (digit_facts c D) as (Sp & _).
        rewrite Sp. simpl. rewrite P, M. now exists false. }
  destruct R as [neg R]. unfold Py.int. rewrite R.
  destruct (unsigned_part s) as [|d ds] eqn:U; [now destruct N|].
  assert (L : Py.leading_underscore (String d ds) = false).
  { simpl in D. apply andb_prop in D. destruct D as [D _].
    now destruct (digit_facts d D) as (_ & Us & _). }
  rewrite L. destruct (scan_all_digits _ 0%Z O D) as [v E]. rewrite E.
  change (0 + length (String d ds))%nat with (length (String d ds)).
  rewrite W. simpl. eexists. reflexivity.
Qed.

(** ** [os.path.join] on a relative second part *)

Lemma append_inj_l (p a b : string) : p ++ a = p ++ b -> a = b.
Proof.
  induction p as [|c p IH]; simpl; [auto|].
  intros [= H]. now apply IH.
Qed.

Lemma path_join_relative (root part : string) :
  Py.startswith_sep part = false ->
  exists sep, (sep = "" \/ sep = "/")
              /\ Py.path_join root part = root ++ sep ++ part
              /\ forall part', Py.startswith_sep part' = false ->
                   Py.path_join root part' = root ++ sep ++ part'.
Proof.
  intros H. unfold Py.path_join. rewrite H.
  destruct ((root =? "") || Py.endswith_sep root).
  - exists "". repeat split; [now left|]. now intros part' ->.
  - exists "/". repeat split; [now right|]. now intros part' ->.
Qed.

Lemma path_join_relative_inj (root a b : string) :
  Py.startswith_sep a = false -> Py.startswith_sep b = false ->
  Py.path_join root a = Py.path_join root b -> a = b.
Proof.
  intros Ha Hb. destruct (path_join_relative root a Ha) as (sep & _ & -> & J).
  rewrite (J b Hb). intros H.
  apply append_inj_l in H. now apply append_inj_l in H.
Qed.

(** ** Matches and lines *)

Lemma matches_of_in (limit : nat) (root : string) (lines : list string)
    (m : string * match_line) :
  In m (matches_of limit root lines) <->
  exists line, In line lines /\ line_match limit root line = Some m.
Proof.
  induction lines as [|l lines IH]; simpl.
  - split; [intros [] | intros (? & [] & _)].
  - destruct (line_match limit root l) as [m'|] eqn:E; simpl; rewrite IH.
    + split.
      * intros [<-|(line & H & F)]; [exists l; auto | exists line; auto].
      * intros (line & [<-|H] & F); [left; congruence | right; exists line; auto].
    + split.
      * intros (line & H & F). exists line; auto.
      * intros (line & [<-|H] & F); [congruence | exists line; auto].
Qed.

(** ** The first colon of a label *)

Lemma find_colon_app (a b : string) :
  colons a = 0%nat -> str_find ":" (a ++ ":" ++ b) = Some (length a).
Proof.
  unfold colons. change (":" ++ b) with (String ":"%char b).
  induction a as [|c a IH]; cbn [append count_char str_find length].
  - intros _. now rewrite prefix_colon.
  - rewrite prefix_colon. destruct (Ascii.eqb c ":"%char); [discriminate|].
    simpl Nat.add. intros H. now rewrite (IH H).
Qed.

Lemma split_first_colon (text : string) :
  (1 <= colons text)%nat ->
  exists a b, text = a ++ ":" ++ b /\ colons a = 0%nat
              /\ Py.split ":" (Some 1) text = [a; b].
Proof.
  intros H. pose proof (find_colon text) as F.
  destruct (str_find ":" text) as [i|] eqn:E; [|lia].
  destruct F as [Fa _].
  exists (take i text), (drop (i + 1) text). repeat split.
  - exact (find_some_split ":" _ i E).
  - exact Fa.
  - rewrite (split_at_find ":" text (Some 1) i colon_not_empty eq_refl E).
    now rewrite split_no_budget.
Qed.

Lemma colons_append (a b : string) :
  colons (a ++ b) = (colons a + colons b)%nat.
Proof.
  unfold colons. induction a as [|c a IH]; simpl; [reflexivity|].
  rewrite IH. lia.
Qed.

(** ** Splitting on a single character *)

Lemma split_char_append (c : ascii) (a b : string) :
  Py.split (String c "") None (a ++ String c b)
  = (Py.split (String c "") None a ++ Py.split (String c "") None b)%list.
Proof.
  unfold Py.split. induction a as [|x a IH]; simpl.
  - rewrite prefix_cons, prefix_empty.
    destruct (ascii_dec c c) as [_|n]; [reflexivity | now destruct n].
  - rewrite !prefix_cons, !prefix_empty. destruct (ascii_dec c x); simpl.
    + now rewrite IH.
    + rewrite IH.
      destruct (Py.split_from (String c "") None 0 a) eqn:E; [|reflexivity].
      now apply split_from_not_nil in E.
Qed.

Lemma split_parts_absent (sep : string) :
  sep <> "" ->
  forall (n : nat) (s x : string),
    (length s <= n)%nat -> In x (Py.split sep None s) ->
    Py.contains sep x = false.
Proof.
  intros Hsep. induction n as [|n IH]; intros s x L.
  - destruct s; [|simpl in L; lia]. intros [<-|[]]. simpl.
    rewrite prefix_of_empty. destruct sep; [now destruct Hsep | reflexivity].
  - destruct (str_find sep s) as [i|] eqn:F.
    + rewrite (split_at_find sep s None i Hsep eq_refl F).
      pose proof (find_some_lt _ _ _ F) as Lt.
      assert (Hpos : (0 < length sep)%nat)
        by (destruct sep; simpl; [congruence | lia]).
      intros [<-|H].
      * now apply (find_some_take_absent sep s).
      * apply (IH (drop (i + length sep) s)); [|exact H].
        rewrite length_drop. lia.
    + rewrite (split_absent _ _ _ F). intros [<-|[]].
      now apply find_none_contains.
Qed.

Lemma ends_with_newline_space (s : string) :
  ends_with_newline s = true -> ends_with_space s = true.
Proof.
  induction s as [|c s IH]; [discriminate|].
  destruct s as [|d s].
  - simpl. intros H. apply Ascii.eqb_eq in H. now subst c.
  - exact IH.
Qed.

Lemma ends_with_newline_append (s : string) :
  ends_with_newline (s ++ LF) = true.
Proof.
  induction s as [|c s IH]; [reflexivity|].
  destruct s as [|d s]; [reflexivity | exact IH].
Qed.

(** ** [os.system] and the commands of [open_file_location] *)

Lemma has_nul_append (a b : string) :
  has_nul (a ++ b) = has_nul a || has_nul b.
Proof.
  induction a as [|c a IH]; simpl; [reflexivity|].
  now rewrite IH, orb_assoc.
Qed.

Lemma os_system_runs (cmd : string) (w : viewer) :
  has_nul cmd = false ->
  os_system cmd w
  = Returned
      (Viewer (path_input w) (query_input w) (tree w) (delegate w)
              (last_sdk_path w) (stdout w) (spawned w) (shell w ++ [cmd])%list).
Proof. unfold os_system. now intros ->. Qed.

Lemma os_system_refuses (cmd : string) (w : viewer) :
  has_nul cmd = true -> os_system cmd w = Raised ValueError w.
Proof. unfold os_system. now intros ->. Qed.

Lemma has_nul_plain_command (text : string) :
  has_nul ("code " ++ DQ ++ text ++ DQ) = has_nul text.
Proof.
  rewrite !has_nul_append. change (has_nul "code ") with false.
  change (has_nul DQ) with false. simpl. now rewrite orb_false_r.
Qed.

Lemma has_nul_goto_command (filepath lineno : string) :
  has_nul ("code -g " ++ DQ ++ filepath ++ DQ ++ ":" ++ lineno)
  = has_nul (filepath ++ ":" ++ lineno).
Proof.
  rewrite !has_nul_append. change (has_nul "code -g ") with false.
  change (has_nul DQ) with false. change (has_nul ":") with false.
  reflexivity.
Qed.

(** What [open_file_location] hands to [os.system], by the number of
    colons of the label. *)
Lemma open_file_location_plain (text : string) (w : viewer) :
  colons text = 0%nat ->
  open_file_location text w = os_system ("code " ++ DQ ++ text ++ DQ) w.
Proof.
  intros C. unfold open_file_location. now rewrite contains_colon, C.
Qed.

Lemma open_file_location_goto (text : string) (w : viewer) :
  (1 <= colons text)%nat ->
  exists filepath lineno,
    text = filepath ++ ":" ++ lineno /\ colons filepath = 0%nat
    /\ Py.split ":" (Some 1) text = [filepath; lineno]
    /\ open_file_location text w
       = os_system ("code -g " ++ DQ ++ filepath ++ DQ ++ ":" ++ lineno)
           (print ("[INFO] Opening file: " ++ filepath ++ " at line " ++ lineno)
              w).
Proof.
  intros C. destruct (split_first_colon text C) as (a & b & E & A & S).
  exists a, b. repeat split; try assumption.
  unfold open_file_location. rewrite contains_colon, S.
  destruct (colons text); [lia | reflexivity].
Qed.

Lemma split_label (path line : string) :
  colons path = 0%nat ->
  Py.split ":" (Some 1) (path ++ ":" ++ line) = [path; line].
Proof.
  intros P.
  rewrite (split_at_find ":" _ (Some 1) _ colon_not_empty eq_refl
             (find_colon_app path line P)).
  rewrite take_append. f_equal.
  rewrite split_no_budget by reflexivity. f_equal.
  rewrite <- (append_assoc path ":" line).
  change (length path + length ":")%nat with (length path + 1)%nat.
  replace (length path + 1)%nat with (length (path ++ ":")).
  - apply drop_append.
  - rewrite length_append. reflexivity.
Qed.



(** * Properties of the specification *)

(** ** The result parser and grouper *)

Lemma parse_grouped (limit : nat) (raw root : string) (files : files_dict)
    (out : list string) :
  parse limit raw root = Next files out ->
  files = grouped (matches_of limit root (result_lines raw))
  /\ out = flat_map (debug_line root) (result_lines raw).
Proof.
  unfold parse. intros H.
  pose proof (parse_loop_next _ _ _ _ _ _ _ H) as Ok.
  rewrite (parse_loop_ok _ _ _ _ _ Ok) in H.
  injection H as <- <-. split; [apply fold_dict_add_grouped | reflexivity].
Qed.

Lemma three_lines_ok (limit : nat) :
  Forall (line_ok limit) ["a.c:3:foo"; "b.c:5:bar"; "a.c:9:baz"].
Proof.
  repeat constructor; intros a b c F; vm_compute in F;
    injection F as <- <- <-; discriminate.
Qed.

Lemma three_lines_grouped (ka kb : string) :
  ka <> kb ->
  grouped [(ka, (3%Z, "foo")); (kb, (5%Z, "bar")); (ka, (9%Z, "baz"))]
  = [(ka, [(3%Z, "foo"); (9%Z, "baz")]); (kb, [(5%Z, "bar")])].
Proof.
  intros N. unfold grouped, lines_of. simpl.
  assert (E1 : (ka =? kb) = false) by now apply String.eqb_neq.
  assert (E2 : (kb =? ka) = false) by (rewrite String.eqb_sym; exact E1).
  now rewrite ?String.eqb_refl, ?E1, ?E2; simpl;
    rewrite ?String.eqb_refl, ?E1, ?E2; simpl;
    rewrite ?String.eqb_refl, ?E1, ?E2.
Qed.

(** C1.  Whenever the parser returns a dictionary, its keys are the joined
    paths of the kept lines in first-seen order and each key holds its
    matches in the order of the raw output; the dictionary is exactly the
    kept lines grouped that way.  For the lines ["a.c:3:foo"],
    ["b.c:5:bar"], ["a.c:9:baz"] and any root [P] the file order is
    [join(P, "a.c")], [join(P, "b.c")] and the first file holds
    [(3, "foo")], [(9, "baz")]. *)
Theorem C1_grouping_preserves_order (limit : nat) (raw root : string)
    (files : files_dict) (out : list string) :
  parse limit raw root = Next files out ->
  map fst files
  = first_seen (map fst (matches_of limit root (result_lines raw)))
  /\ (forall k ls, In (k, ls) files ->
        ls = lines_of k (matches_of limit root (result_lines raw)))
  /\ files = grouped (matches_of limit root (result_lines raw))
  /\ (forall P : string,
        exists out',
          parse limit ("a.c:3:foo" ++ LF ++ "b.c:5:bar" ++ LF ++ "a.c:9:baz" ++ LF) P
          = Next [(Py.path_join P "a.c", [(3%Z, "foo"); (9%Z, "baz")]);
                  (Py.path_join P "b.c", [(5%Z, "bar")])] out').
Proof.
  intros H. destruct (parse_grouped _ _ _ _ _ H) as [G _].
  repeat split.
  - rewrite G. apply grouped_keys.
  - intros k ls I. rewrite G in I. now apply grouped_entry in I.
  - exact G.
  - intros P. unfold parse.
    change (result_lines ("a.c:3:foo" ++ LF ++ "b.c:5:bar" ++ LF ++ "a.c:9:baz" ++ LF))
      with ["a.c:3:foo"; "b.c:5:bar"; "a.c:9:baz"].
    rewrite (parse_loop_ok _ _ _ _ _ (three_lines_ok limit)).
    eexists. f_equal. rewrite fold_dict_add_grouped.
    change (matches_of limit P ["a.c:3:foo"; "b.c:5:bar"; "a.c:9:baz"])
      with [(Py.path_join P "a.c", (3%Z, "foo"));
            (Py.path_join P "b.c", (5%Z, "bar"));
            (Py.path_join P "a.c", (9%Z, "baz"))].
    apply three_lines_grouped. intros E.
    apply path_join_relative_inj in E; [discriminate | reflexivity | reflexivity].
Qed.

Lemma C1_witness :
  map fst [("/sdk/a.c", [(3%Z, "foo"); (9%Z, "baz")]); ("/sdk/b.c", [(5%Z, "bar")])]
  = first_seen
      (map fst (matches_of 4300 "/sdk"
                  (result_lines ("a.c:3:foo" ++ LF ++ "b.c:5:bar" ++ LF
                                 ++ "a.c:9:baz" ++ LF)))).
Proof.
  apply (C1_grouping_preserves_order 4300
           ("a.c:3:foo" ++ LF ++ "b.c:5:bar" ++ LF ++ "a.c:9:baz" ++ LF) "/sdk"
           [("/sdk/a.c", [(3%Z, "foo"); (9%Z, "baz")]); ("/sdk/b.c", [(5%Z, "bar")])]
           ["[DEBUG] Match: /sdk/a.c:3 -> foo"; "[DEBUG] Match: /sdk/b.c:5 -> bar";
            "[DEBUG] Match: /sdk/a.c:9 -> baz"]).
  vm_compute. reflexivity.
Defined.

(** C5.  In the dictionary the parser returns, every match line stands
    under the key [join(P, filePathPart)] of a kept source line with that
    line's number and trimmed remainder, and every kept source line has its
    match under that key; for a relative [filePathPart] the key is the root
    followed by the part, with a separator put between them when the root
    does not end in one. *)
Theorem C5_matches_under_joined_path (limit : nat) (raw root : string)
    (files : files_dict) (out : list string) :
  parse limit raw root = Next files out ->
  (forall k ls n text,
      In (k, ls) files -> In (n, text) ls ->
      exists line filepath lineno code,
        In line (result_lines raw)
        /\ line_fields line = Some (filepath, lineno, code)
        /\ k = Py.path_join root filepath
        /\ Py.int limit lineno = Some n
        /\ text = Py.strip code)
  /\ (forall line filepath lineno code,
        In line (result_lines raw) ->
        line_fields line = Some (filepath, lineno, code) ->
        exists n ls,
          Py.int limit lineno = Some n
          /\ In (Py.path_join root filepath, ls) files
          /\ In (n, Py.strip code) ls)
  /\ (forall filepath,
        Py.startswith_sep filepath = false ->
        exists sep, (sep = "" \/ sep = "/")
                    /\ Py.path_join root filepath = root ++ sep ++ filepath).
Proof.
  intros H. destruct (parse_grouped _ _ _ _ _ H) as [G _].
  pose proof (parse_loop_next _ _ _ _ _ _ _ H) as Ok.
  repeat split.
  - intros k ls n text I J. rewrite G in I. apply grouped_entry in I.
    destruct I as [_ ->]. apply lines_of_in in J. apply matches_of_in in J.
    destruct J as (line & L & M). unfold line_match in M.
    destruct (line_fields line) as [[[a b] c]|] eqn:F; [|discriminate].
    destruct (Py.int limit b) as [n'|] eqn:I; [|discriminate].
    injection M as <- <- <-. exists line, a, b, c. auto.
  - intros line a b c L F.
    rewrite Forall_forall in Ok. pose proof (Ok line L a b c F) as I.
    destruct (Py.int limit b) as [n|] eqn:E; [|now destruct I].
    exists n, (lines_of (Py.path_join root a)
                        (matches_of limit root (result_lines raw))).
    assert (M : In (Py.path_join root a, (n, Py.strip c))
                   (matches_of limit root (result_lines raw))).
    { apply matches_of_in. exists line. split; [exact L|].
      unfold line_match. now rewrite F, E. }
    repeat split.
    + rewrite G. apply grouped_entry. split; [|reflexivity].
      apply existsb_exists. exists (Py.path_join root a).
      split; [|apply String.eqb_refl].
      apply in_map_iff. now exists (Py.path_join root a, (n, Py.strip c)).
    + now apply lines_of_in.
  - intros filepath R.
    destruct (path_join_relative root filepath R) as (sep & S & E & _).
    now exists sep.
Qed.

Lemma C5_witness :
  exists sep, (sep = "" \/ sep = "/")
              /\ Py.path_join "/sdk" "src/eeprom.c" = "/sdk" ++ sep ++ "src/eeprom.c".
Proof.
  apply (C5_matches_under_joined_path 4300
           "src/eeprom.c:42:void ath9k_hw_eeprom_init(void) {" "/sdk"
           [("/sdk/src/eeprom.c", [(42%Z, "void ath9k_hw_eeprom_init(void) {")])]
           ["[DEBUG] Match: /sdk/src/eeprom.c:42 -> void ath9k_hw_eeprom_init(void) {"]).
  - vm_compute. reflexivity.
  - reflexivity.
Defined.

Lemma line_fields_short (line : string) :
  colons line = 0%nat \/ (List.length (Py.split ":" (Some 2) line) < 3)%nat ->
  line_fields line = None.
Proof.
  intros [H|H].
  - apply line_fields_few. lia.
  - unfold line_fields. destruct (Py.contains ":" line); [|reflexivity].
    destruct (Py.split ":" (Some 2) line) as [|a [|b [|c [|d r]]]];
      simpl in H; try reflexivity; lia.
Qed.

(** C4.  A line with no colon, or one that splits into fewer than three
    colon-delimited parts, leaves the dictionary and the output as they
    were and raises nothing, wherever it stands among the lines; an empty
    raw output gives the empty dictionary. *)
Theorem C4_malformed_lines_dropped (limit : nat) (root line : string)
    (before after : list string) (files : files_dict) (out : list string) :
  colons line = 0%nat \/ (List.length (Py.split ":" (Some 2) line) < 3)%nat ->
  loop_body limit root line files out = Next files out
  /\ parse_loop limit root (before ++ line :: after) files out
     = parse_loop limit root (before ++ after) files out
  /\ parse limit "" root = Next [] [].
Proof.
  intros H. apply line_fields_short in H.
  pose proof (loop_body_skip limit root line) as S.
  repeat split.
  - now apply S.
  - rewrite !parse_loop_app.
    destruct (parse_loop limit root before files out) as [f o|e o];
      [|reflexivity].
    simpl. now rewrite (S f o H).
Qed.

Lemma C4_witness :
  loop_body 4300 "/sdk" "only:onecolon" [] [] = Next [] []
  /\ parse_loop 4300 "/sdk" (["a.c:3:foo"] ++ "noColonHere" :: ["b.c:5:bar"]) [] []
     = parse_loop 4300 "/sdk" (["a.c:3:foo"] ++ ["b.c:5:bar"]) [] [].
Proof.
  split.
  - apply (C4_malformed_lines_dropped 4300 "/sdk" "only:onecolon" [] [] [] []).
    right. vm_compute. lia.
  - apply (C4_malformed_lines_dropped 4300 "/sdk" "noColonHere"
             ["a.c:3:foo"] ["b.c:5:bar"] [] []).
    left. reflexivity.
Defined.

(** C6.  A line with two or more colons is cut at its first two colons
    into exactly three parts; the third part keeps every further colon of
    the line; when the number field is accepted the entry appended for the
    line has the third part with its leading and trailing whitespace
    removed as its text. *)
Theorem C6_split_on_first_two_colons (limit : nat) (root line : string)
    (files : files_dict) (out : list string) :
  (2 <= colons line)%nat ->
  exists filepath lineno code,
    line = filepath ++ ":" ++ lineno ++ ":" ++ code
    /\ colons filepath = 0%nat /\ colons lineno = 0%nat
    /\ colons code = (colons line - 2)%nat
    /\ Py.split ":" (Some 2) line = [filepath; lineno; code]
    /\ (forall n,
          Py.int limit lineno = Some n ->
          loop_body limit root line files out
          = Next (dict_add (Py.path_join root filepath) (n, Py.strip code) files)
                 (out ++ debug_line root line))
    /\ (exists ws1 ws2,
          code = ws1 ++ Py.strip code ++ ws2
          /\ all_space ws1 = true /\ all_space ws2 = true
          /\ trimmed (Py.strip code) = true).
Proof.
  intros H.
  destruct (split_colon_three line H) as (a & b & c & E & A & B & C & S).
  destruct (line_fields_three line H) as (a' & b' & c' & _ & _ & _ & S' & F).
  rewrite S in S'. injection S' as <- <- <-.
  exists a, b, c. repeat split; try assumption.
  - intros n I. now rewrite loop_body_fields, F, I.
  - apply strip_decompose.
Qed.

Lemma C6_witness :
  exists filepath lineno code,
    Py.split ":" (Some 2) "a.cpp:7:  std::vector<int> v; " = [filepath; lineno; code]
    /\ Py.strip code = "std::vector<int> v;"
    /\ colons code = 2%nat.
Proof.
  destruct (C6_split_on_first_two_colons 4300 "/sdk"
              "a.cpp:7:  std::vector<int> v; " [] [])
    as (a & b & c & _ & _ & _ & C & S & _).
  - vm_compute. lia.
  - exists a, b, c. vm_compute in S. injection S as <- <- <-.
    repeat split.
Defined.

(** ** Failures of the parser *)

Lemma not_line_ok (limit : nat) (lines : list string)
    (line a b c : string) :
  In line lines -> line_fields line = Some (a, b, c) ->
  Py.int limit b = None -> ~ Forall (line_ok limit) lines.
Proof.
  intros L F I Ok. rewrite Forall_forall in Ok.
  exact (Ok line L a b c F I).
Qed.

(** C2, as stated, fails: the line ["a.c:x:foo"] is kept, its number field
    is refused by [int], and the parser raises instead of going on to
    ["b.c:5:bar"]. *)
Lemma C2_counterexample :
  line_fields "a.c:x:foo" = Some ("a.c", "x", "foo")
  /\ Py.int 4300 "x" = None
  /\ parse 4300 ("a.c:x:foo" ++ LF ++ "b.c:5:bar" ++ LF) "/sdk"
     = Fail ValueError []
  /\ ~ (exists files out,
          parse 4300 ("a.c:x:foo" ++ LF ++ "b.c:5:bar" ++ LF) "/sdk"
          = Next files out).
Proof.
  repeat split; try reflexivity.
  intros (files & out & H). vm_compute in H. discriminate H.
Qed.

(** C2, amended.  If some kept line of the raw output has a number field
    that [int] refuses, the parser raises [ValueError] and returns no
    dictionary; a kept line whose number field [int] accepts is recorded
    with that number whatever its sign, so zero and negative numbers are
    kept too. *)
Theorem C2_bad_line_number_raises (limit : nat) (raw root line : string)
    (filepath lineno code : string) :
  In line (result_lines raw) ->
  line_fields line = Some (filepath, lineno, code) ->
  Py.int limit lineno = None ->
  (exists out, parse limit raw root = Fail ValueError out)
  /\ (forall files out, parse limit raw root <> Next files out)
  /\ (forall l a b c n files out,
        line_fields l = Some (a, b, c) -> Py.int limit b = Some n ->
        loop_body limit root l files out
        = Next (dict_add (Py.path_join root a) (n, Py.strip c) files)
               (out ++ debug_line root l))
  /\ (exists out,
        parse limit ("a.c:0:x" ++ LF ++ "a.c:-3:y" ++ LF) "/sdk"
        = Next [("/sdk/a.c", [(0%Z, "x"); ((-3)%Z, "y")])] out).
Proof.
  intros L F I.
  pose proof (not_line_ok limit _ _ _ _ _ L F I) as Bad.
  repeat split.
  - now apply parse_loop_raise.
  - intros files out H. apply parse_loop_next in H. now apply Bad.
  - intros l a b c n files out Fl Il. now rewrite loop_body_fields, Fl, Il.
  - eexists. vm_compute. reflexivity.
Qed.

Lemma C2_witness :
  exists out,
    parse 4300 ("a.c:x:foo" ++ LF ++ "b.c:5:bar" ++ LF) "/sdk"
    = Fail ValueError out.
Proof.
  apply (C2_bad_line_number_raises 4300
           ("a.c:x:foo" ++ LF ++ "b.c:5:bar" ++ LF) "/sdk"
           "a.c:x:foo" "a.c" "x" "foo").
  - vm_compute. left. reflexivity.
  - reflexivity.
  - reflexivity.
Defined.

(** ** What [perform_search] does around the parser *)

Lemma fold_print (out : list string) (w : viewer) :
  fold_left (fun w s => print s w) out w
  = Viewer (path_input w) (query_input w) (tree w) (delegate w)
           (last_sdk_path w) (stdout w ++ out) (spawned w) (shell w).
Proof.
  revert w; induction out as [|s out IH]; intros w; simpl.
  - rewrite app_nil_r. now destruct w.
  - rewrite IH. simpl. now rewrite <- app_assoc.
Qed.

(** C7, as stated, fails twice: the parser prints a line for every match
    it files, and with the interpreter's default limit of 4300 digits it
    raises on a number field of 4301 digits. *)
Lemma C7_counterexample :
  parse 4300 "a.c:3:foo" "/sdk"
  = Next [("/sdk/a.c", [(3%Z, "foo")])] ["[DEBUG] Match: /sdk/a.c:3 -> foo"]
  /\ decimal_literal (repeated "1" 4301) = true
  /\ parse 4300 ("a.c:" ++ repeated "1" 4301 ++ ":foo") "/sdk"
     = Fail ValueError [].
Proof. repeat split; vm_compute; reflexivity. Qed.

(** C7, amended.  When the number field of every kept line is a plain
    decimal integer (an optional sign and digits) within the interpreter's
    digit limit, the parser raises nothing and returns the kept lines
    grouped, a function of the raw output and the root alone: in
    [perform_search] the tree built from it does not depend on anything
    else of the viewer.  Its one effect besides the dictionary is the
    [[DEBUG] Match] line it prints for each kept line. *)
Theorem C7_parse_total_on_decimal_numbers (limit : nat) (raw root : string) :
  (forall line a b c,
      In line (result_lines raw) -> line_fields line = Some (a, b, c) ->
      decimal_literal b = true /\ within_digit_limit limit b = true) ->
  exists files,
    parse limit raw root
    = Next files (flat_map (debug_line root) (result_lines raw))
    /\ files = grouped (matches_of limit root (result_lines raw))
    /\ (forall (check_output : list string -> string -> process) (w : viewer),
          Py.strip (query_input w) <> "" ->
          root <> "" -> Py.strip (path_input w) = root ->
          check_output (rg_command (Py.strip (query_input w))) root
          = Completed raw ->
          exists w',
            perform_search limit check_output w = Returned w'
            /\ tree w' = map file_item files
            /\ delegate w' = Some (Py.strip (query_input w))
            /\ stdout w'
               = (stdout w
                  ++ [("[INFO] Running: "
                       ++ Py.join " " (rg_command (Py.strip (query_input w))))%string;
                      ("[INFO] In directory: " ++ root)%string;
                      "[INFO] ripgrep output:"; raw]
                  ++ flat_map (debug_line root) (result_lines raw))%list
            /\ spawned w'
               = (spawned w ++ [(rg_command (Py.strip (query_input w)), root)])%list
            /\ last_sdk_path w' = root
            /\ shell w' = shell w).
Proof.
  intros H.
  assert (Ok : Forall (line_ok limit) (result_lines raw)).
  { apply Forall_forall. intros line L a b c F.
    destruct (H line a b c L F) as [D W].
    destruct (int_decimal_literal limit b D W) as [n ->]. discriminate. }
  exists (grouped (matches_of limit root (result_lines raw))).
  assert (P : parse limit raw root
              = Next (grouped (matches_of limit root (result_lines raw)))
                     (flat_map (debug_line root) (result_lines raw))).
  { unfold parse. rewrite (parse_loop_ok _ _ _ _ _ Ok).
    now rewrite fold_dict_add_grouped. }
  repeat split; [exact P|].
  intros co w K R E C. unfold perform_search.
  cbn [query_input path_input set_tree].
  apply String.eqb_neq in K, R. rewrite E, K, R. cbn [orb].
  cbn [save_last_path print spawn query_input path_input tree delegate
       last_sdk_path stdout spawned shell].
  rewrite C, P, fold_print.
  eexists. split; [reflexivity|].
  cbn [set_delegate set_tree query_input path_input tree delegate
       last_sdk_path stdout spawned shell].
  repeat split.
  unfold print, spawn, save_last_path, set_tree. cbn [stdout].
  now rewrite <- !app_assoc.
Qed.

Lemma C7_witness :
  exists files,
    parse 4300 ("a.c:3:foo" ++ LF ++ "noColon" ++ LF ++ "b.c:-5:bar" ++ LF) "/sdk"
    = Next files
           (flat_map (debug_line "/sdk")
              (result_lines ("a.c:3:foo" ++ LF ++ "noColon" ++ LF
                             ++ "b.c:-5:bar" ++ LF)))
    /\ files
       = grouped (matches_of 4300 "/sdk"
                    (result_lines ("a.c:3:foo" ++ LF ++ "noColon" ++ LF
                                   ++ "b.c:-5:bar" ++ LF))).
Proof.
  destruct (C7_parse_total_on_decimal_numbers 4300
              ("a.c:3:foo" ++ LF ++ "noColon" ++ LF ++ "b.c:-5:bar" ++ LF) "/sdk")
    as (files & P & G & _).
  - intros line a b c L F. vm_compute in L.
    destruct L as [<-|[<-|[<-|[]]]]; vm_compute in F;
      try discriminate F; injection F as <- <- <-; split; reflexivity.
  - exists files. split; assumption.
Defined.

(** C9.  When the keyword or the root path is empty once stripped,
    [perform_search] clears the tree, prints the warning and returns: no
    process is started whatever the search tool would have answered, the
    stored path and the delegate are untouched and the tree stays empty. *)
Theorem C9_missing_input_aborts (limit : nat)
    (check_output : list string -> string -> process) (w : viewer) :
  Py.strip (query_input w) = "" \/ Py.strip (path_input w) = "" ->
  exists w',
    perform_search limit check_output w = Returned w'
    /\ stdout w' = (stdout w ++ ["[WARN] Missing keyword or SDK path"])%list
    /\ spawned w' = spawned w
    /\ tree w' = []
    /\ delegate w' = delegate w
    /\ last_sdk_path w' = last_sdk_path w
    /\ shell w' = shell w
    /\ (forall check_output',
          perform_search limit check_output' w = Returned w').
Proof.
  intros H.
  assert (T : (Py.strip (query_input w) =? "") || (Py.strip (path_input w) =? "")
              = true).
  { destruct H as [-> | ->]; [reflexivity | apply orb_true_r]. }
  exists (print "[WARN] Missing keyword or SDK path" (set_tree [] w)).
  unfold perform_search. cbn [query_input path_input set_tree]. rewrite T.
  repeat split.
Qed.

Lemma C9_witness :
  exists w',
    perform_search 4300 (fun _ _ => Completed "a.c:3:foo")
      (Viewer "/sdk" "   " [TreeItem "/old/x.c" []] None "/old" [] [] [])
    = Returned w'
    /\ stdout w' = ["[WARN] Missing keyword or SDK path"]
    /\ spawned w' = []
    /\ tree w' = [].
Proof.
  destruct (C9_missing_input_aborts 4300 (fun _ _ => Completed "a.c:3:foo")
              (Viewer "/sdk" "   " [TreeItem "/old/x.c" []] None "/old" [] [] []))
    as (w' & P & O & S & T & _).
  - left. reflexivity.
  - exists w'. repeat split; assumption.
Defined.

(** ** The keyword painter *)

(** C3, as stated, fails: for ["the cat sat"] and ["at"] the painter draws
    five segments, the last an empty text segment after the second
    keyword, where the specification has four. *)
Lemma C3_counterexample :
  highlight_segments "the cat sat" "at"
  = [("the c", false); ("at", true); (" s", false); ("at", true); ("", false)]
  /\ spec_split "the cat sat" "at"
     = [("the c", false); ("at", true); (" s", false); ("at", true)]
  /\ highlight_segments "the cat sat" "at" <> spec_split "the cat sat" "at".
Proof. repeat split; try reflexivity. vm_compute. discriminate. Qed.

(** C3, amended.  For a non-empty keyword the painter draws, in order, the
    text before each leftmost non-overlapping occurrence of the keyword,
    the keyword itself as a keyword segment, and the tail after the last
    occurrence; the segments concatenate to the text, the keyword segments
    are exactly the keyword, no text segment holds an occurrence, and empty
    text segments are drawn too: leaving them out gives the sequence of the
    specification whenever the keyword occurs in the text.  For
    ["the cat sat"] and ["at"] there are five segments, the second and the
    fourth being the keyword and the fifth empty. *)
Theorem C3_painted_segments (width : string -> Z) (x : Z)
    (text keyword : string) :
  keyword <> "" ->
  concat "" (map fst (segments_of (paint width x keyword (Some text)))) = text
  /\ segments_of (paint width x keyword (Some text))
     = all_segments (length text) keyword text
  /\ (forall s, In (s, true) (segments_of (paint width x keyword (Some text))) ->
        s = keyword)
  /\ (forall s, In (s, false) (segments_of (paint width x keyword (Some text))) ->
        Py.contains keyword s = false)
  /\ (Py.contains keyword text = true ->
      filter (fun p => negb (is_text_segment_empty p))
             (segments_of (paint width x keyword (Some text)))
      = spec_split text keyword)
  /\ highlight_segments "the cat sat" "at"
     = [("the c", false); ("at", true); (" s", false); ("at", true);
        ("", false)].
Proof.
  intros Hk.
  assert (E : segments_of (paint width x keyword (Some text))
              = all_segments (length text) keyword text).
  { unfold paint. apply String.eqb_neq in Hk. rewrite Hk. cbn [orb].
    destruct (Py.contains keyword text) eqn:C; cbn [negb segments_of].
    - apply String.eqb_neq in Hk.
      now apply draw_split_segments.
    - apply find_none_contains in C.
      destruct (length text); simpl; [reflexivity | now rewrite C]. }
  rewrite E. repeat split.
  - apply all_segments_concat.
  - intros s. now apply all_segments_flags.
  - intros s. now apply all_segments_flags.
  - intros C. rewrite all_segments_filter. unfold spec_split.
    apply String.eqb_neq in Hk. now rewrite Hk, C.
Qed.

Lemma C3_witness :
  concat ""
    (map fst (segments_of
                (paint (fun s => Z.of_nat (length s)) 0%Z "at" (Some "atlas at"))))
  = "atlas at".
Proof.
  apply (C3_painted_segments (fun s => Z.of_nat (length s)) 0%Z "atlas at" "at").
  discriminate.
Defined.

(** ** Splitting the raw output into lines *)

(** C8, as stated, fails: leading whitespace and leading blank lines are
    removed before the lines are processed, which changes the path a line
    is filed under. *)
Lemma C8_counterexample :
  result_lines ("  a.c:1:x" ++ LF) = ["a.c:1:x"]
  /\ spec_lines ("  a.c:1:x" ++ LF) = ["  a.c:1:x"]
  /\ result_lines (LF ++ LF ++ "a.c:1:x" ++ LF) = ["a.c:1:x"]
  /\ spec_lines (LF ++ LF ++ "a.c:1:x" ++ LF) = [""; ""; "a.c:1:x"]
  /\ parse 4300 ("  a.c:1:x" ++ LF) "/sdk"
     = Next [("/sdk/a.c", [(1%Z, "x")])] ["[DEBUG] Match: /sdk/a.c:1 -> x"]
  /\ parse_loop 4300 "/sdk" (spec_lines ("  a.c:1:x" ++ LF)) [] []
     = Next [("/sdk/  a.c", [(1%Z, "x")])] ["[DEBUG] Match: /sdk/  a.c:1 -> x"].
Proof. repeat split; vm_compute; reflexivity. Qed.

(** C8, amended.  Step 1 removes all leading and all trailing whitespace
    of the raw output, blank lines included, and splits what is left on
    line feeds: for a raw output made of whitespace, a body that neither
    starts nor ends with whitespace, and whitespace again, the lines are
    those of the body, joining them with line feeds gives the body back and
    no line holds a line feed.  When the raw output is such a body alone,
    or such a body followed by one final newline, these are the lines of
    the specification; every raw output has such a body, its [strip]. *)
Theorem C8_lines_of_stripped_output (ws1 body ws2 : string) :
  all_space ws1 = true -> all_space ws2 = true -> trimmed body = true ->
  result_lines (ws1 ++ body ++ ws2) = Py.split LF None body
  /\ Py.join LF (result_lines (ws1 ++ body ++ ws2)) = body
  /\ (forall line, In line (result_lines (ws1 ++ body ++ ws2)) ->
        Py.contains LF line = false)
  /\ result_lines body = spec_lines body
  /\ result_lines (body ++ LF) = spec_lines (body ++ LF)
  /\ (forall raw, exists l r,
        raw = l ++ Py.strip raw ++ r
        /\ all_space l = true /\ all_space r = true
        /\ trimmed (Py.strip raw) = true).
Proof.
  intros A1 A2 T.
  assert (NE : LF <> "") by discriminate.
  assert (R : forall l r, all_space l = true -> all_space r = true ->
                          result_lines (l ++ body ++ r) = Py.split LF None body).
  { intros l r Al Ar. unfold result_lines. now rewrite strip_unique. }
  rewrite (R ws1 ws2 A1 A2). repeat split.
  - now apply join_split.
  - intros line I. now apply (split_parts_absent LF NE (length body) body).
  - pose proof (R "" "" eq_refl eq_refl) as R0.
    change ("" ++ body ++ "") with (body ++ "") in R0.
    rewrite append_empty_r in R0. rewrite R0. unfold spec_lines.
    destruct (ends_with_newline body) eqn:N; [|reflexivity].
    apply ends_with_newline_space in N. unfold trimmed in T.
    rewrite N in T. now rewrite andb_false_r in T.
  - pose proof (R "" LF eq_refl eq_refl) as R1.
    change ("" ++ body ++ LF) with (body ++ LF) in R1.
    rewrite R1. unfold spec_lines.
    rewrite ends_with_newline_append.
    change (body ++ LF) with (body ++ String (ascii_of_nat 10) "").
    change LF with (String (ascii_of_nat 10) "").
    rewrite split_char_append.
    change (Py.split (String (ascii_of_nat 10) "") None "") with [""].
    now rewrite removelast_last.
  - intros raw. destruct (strip_decompose raw) as (l & r & D).
    now exists l, r.
Qed.

Lemma C8_witness :
  result_lines ((LF ++ "  ") ++ ("a.c:1:x" ++ LF ++ "b.c:2:y") ++ (" " ++ LF ++ LF))
  = Py.split LF None ("a.c:1:x" ++ LF ++ "b.c:2:y").
Proof.
  apply (C8_lines_of_stripped_output (LF ++ "  ")
           ("a.c:1:x" ++ LF ++ "b.c:2:y") (" " ++ LF ++ LF));
    reflexivity.
Defined.

(** ** Opening a file from a tree item *)

(** C10, as stated, fails on a label that holds a NUL character:
    [os.system] refuses the command with [ValueError] and nothing is run,
    with or without a colon in the label. *)
Lemma C10_counterexample :
  colons ("a" ++ NUL ++ ".c") = 0%nat
  /\ open_file_location ("a" ++ NUL ++ ".c") (Viewer "/sdk" "x" [] None "" [] [] [])
     = Raised ValueError (Viewer "/sdk" "x" [] None "" [] [] [])
  /\ open_file_location ("a" ++ NUL ++ ".c:3") (Viewer "/sdk" "x" [] None "" [] [] [])
     = Raised ValueError
         (Viewer "/sdk" "x" [] None ""
            ["[INFO] Opening file: a" ++ NUL ++ ".c at line 3"] [] []).
Proof. repeat split. Qed.

(** C10, amended.  For a label without NUL, [open_file_location] cuts the
    label at its first colon and hands [os.system] exactly one command
    line, [code -g "filepath":lineno] with the two parts put in as they
    are, after printing the line that names them; a label without colon
    goes in whole, as [code "label"], with no line number and nothing
    printed.  For a label [path:line] the parts are [path] and [line]
    exactly when [path] holds no colon; in any case the first part holds no
    colon, so a path with a colon is cut short at it.  Nothing else of the
    viewer changes.  A label with a NUL raises [ValueError] and no command
    is run. *)
Theorem C10_open_file_location (path line text : string) (w : viewer) :
  colons text = 0%nat -> has_nul text = false ->
  has_nul (path ++ ":" ++ line) = false ->
  (Py.split ":" (Some 1) (path ++ ":" ++ line) = [path; line]
   <-> colons path = 0%nat)
  /\ (exists filepath lineno,
        Py.split ":" (Some 1) (path ++ ":" ++ line) = [filepath; lineno]
        /\ colons filepath = 0%nat
        /\ path ++ ":" ++ line = filepath ++ ":" ++ lineno
        /\ open_file_location (path ++ ":" ++ line) w
           = Returned
               (Viewer (path_input w) (query_input w) (tree w) (delegate w)
                  (last_sdk_path w)
                  (stdout w ++ [("[INFO] Opening file: " ++ filepath
                                 ++ " at line " ++ lineno)%string])%list
                  (spawned w)
                  (shell w ++ [("code -g " ++ DQ ++ filepath ++ DQ ++ ":"
                                ++ lineno)%string])%list))
  /\ open_file_location text w
     = Returned
         (Viewer (path_input w) (query_input w) (tree w) (delegate w)
            (last_sdk_path w) (stdout w) (spawned w)
            (shell w ++ [("code " ++ DQ ++ text ++ DQ)%string])%list)
  /\ (forall label,
        has_nul label = true ->
        exists w',
          open_file_location label w = Raised ValueError w'
          /\ shell w' = shell w /\ spawned w' = spawned w
          /\ tree w' = tree w).
Proof.
  intros T NT NL.
  assert (C : (1 <= colons (path ++ ":" ++ line))%nat).
  { rewrite !colons_append. change (colons ":") with 1%nat. lia. }
  destruct (open_file_location_goto _ w C) as (a & b & E & A & S & O).
  split; [|split; [|split]].
  - split.
    + intros H. rewrite S in H. now injection H as <- <-.
    + apply split_label.
  - exists a, b. repeat split; try assumption.
    rewrite O, os_system_runs; [reflexivity|].
    now rewrite has_nul_goto_command, <- E.
  - rewrite (open_file_location_plain _ _ T), os_system_runs; [reflexivity|].
    now rewrite has_nul_plain_command.
  - intros label N. destruct (colons label) as [|n] eqn:CL.
    + rewrite (open_file_location_plain _ _ CL), os_system_refuses.
      * now exists w.
      * now rewrite has_nul_plain_command.
    + destruct (open_file_location_goto label w) as (fp & ln & El & _ & _ & Ol);
        [lia|].
      rewrite Ol, os_system_refuses.
      * eexists. split; [reflexivity|]. repeat split.
      * now rewrite has_nul_goto_command, <- El.
Qed.

Lemma C10_witness :
  open_file_location "/sdk/src/eeprom.c" (Viewer "/sdk" "init" [] None "" [] [] [])
  = Returned (Viewer "/sdk" "init" [] None "" [] []
                [("code " ++ DQ ++ "/sdk/src/eeprom.c" ++ DQ)%string]).
Proof.
  apply (C10_open_file_location "/sdk/src/eeprom.c" "42" "/sdk/src/eeprom.c"
           (Viewer "/sdk" "init" [] None "" [] [] []));
    reflexivity.
Defined.

(** * Further properties of the code *)

(** ** The drawing loop of [paint] *)

Section DrawLoop.

Variable width : string -> Z.
Variable keyword : string.

Lemma draw_segments_one (x : Z) (s : string) :
  draw_segments width keyword x [s] = [Draw x TextColor s].
Proof. reflexivity. Qed.

Lemma draw_segments_more (x : Z) (s s2 : string) (rest : list string) :
  draw_segments width keyword x (s :: s2 :: rest)
  = Draw x TextColor s
    :: Draw (x + width s) Red keyword
    :: draw_segments width keyword (x + width s + width keyword) (s2 :: rest).
Proof. reflexivity. Qed.

Lemma draw_segments_laid_out (segments : list string) (x : Z) :
  laid_out width x (draw_segments width keyword x segments).
Proof.
  revert x; induction segments as [|s rest IH]; intros x; [exact I|].
  destruct rest as [|s2 rest].
  - rewrite draw_segments_one. simpl. auto.
  - rewrite draw_segments_more. cbn [laid_out draw_x draw_text].
    repeat split. apply IH.
Qed.

Lemma draw_segments_alternating (segments : list string) (x : Z) :
  alternating false (draw_segments width keyword x segments) = true.
Proof.
  revert x; induction segments as [|s rest IH]; intros x; [reflexivity|].
  destruct rest as [|s2 rest].
  - reflexivity.
  - rewrite draw_segments_more. cbn [alternating draw_pen is_red Bool.eqb andb negb].
    apply IH.
Qed.

Lemma draw_segments_red (segments : list string) (x : Z) (d : draw) :
  In d (red_calls (draw_segments width keyword x segments)) ->
  draw_text d = keyword.
Proof.
  unfold red_calls.
  revert x; induction segments as [|s rest IH]; intros x; [intros []|].
  destruct rest as [|s2 rest].
  - intros [].
  - rewrite draw_segments_more. cbn [filter draw_pen is_red].
    intros [<-|H]; [reflexivity|].
    now apply (IH _ H).
Qed.

Lemma draw_segments_counts (segments : list string) (x : Z) :
  segments <> [] ->
  List.length (red_calls (draw_segments width keyword x segments))
  = (List.length segments - 1)%nat
  /\ List.length (draw_segments width keyword x segments)
     = (2 * List.length segments - 1)%nat.
Proof.
  unfold red_calls.
  revert x; induction segments as [|s rest IH]; intros x N; [now destruct N|].
  destruct rest as [|s2 rest].
  - split; reflexivity.
  - rewrite draw_segments_more.
    destruct (IH (x + width s + width keyword)%Z) as [R L]; [discriminate|].
    cbn [filter draw_pen is_red List.length] in *. rewrite R, L. split; lia.
Qed.

Lemma draw_segments_end (segments : list string) (x : Z) :
  (forall a b, width (a ++ b) = (width a + width b)%Z) ->
  segments <> [] ->
  layout_end width x (draw_segments width keyword x segments)
  = (x + width (Py.join keyword segments))%Z.
Proof.
  intros Add.
  revert x; induction segments as [|s rest IH]; intros x N; [now destruct N|].
  destruct rest as [|s2 rest].
  - reflexivity.
  - rewrite draw_segments_more. cbn [layout_end draw_x draw_text].
    rewrite IH by discriminate.
    change (Py.join keyword (s :: s2 :: rest))
      with (s ++ keyword ++ Py.join keyword (s2 :: rest)).
    rewrite !Add. lia.
Qed.

End DrawLoop.

Lemma split_present_two (sep s : string) :
  sep <> "" -> Py.contains sep s = true ->
  (2 <= List.length (Py.split sep None s))%nat.
Proof.
  intros N C. destruct (str_find sep s) as [i|] eqn:F.
  - rewrite (split_at_find sep s None i N eq_refl F). simpl.
    destruct (Py.split sep None (drop (i + length sep) s)) eqn:E.
    + now apply split_from_not_nil in E.
    + simpl. lia.
  - apply find_none_contains in F. congruence.
Qed.

(** X1.  When [paint] draws the text itself, every call starts where the one
    before it ended, the first at the left edge of the cell; with a width
    that adds up over concatenation the last call ends where the whole
    text would. *)
Theorem paint_layout_contiguous (width : string -> Z) (rect_x : Z)
    (keyword : string) (data : option string) (calls : list draw) :
  paint width rect_x keyword data = Drawn calls ->
  laid_out width rect_x calls
  /\ ((forall a b, width (a ++ b) = (width a + width b)%Z) ->
      layout_end width rect_x calls
      = (rect_x + width (match data with Some t => t | None => "" end))%Z).
Proof.
  unfold paint.
  destruct ((keyword =? "")
            || negb (Py.contains keyword
                       (match data with Some t => t | None => "" end))) eqn:G;
    [discriminate|].
  apply orb_false_elim in G. destruct G as [K _].
  apply String.eqb_neq in K.
  intros [= <-]. split.
  - apply draw_segments_laid_out.
  - intros Add. rewrite draw_segments_end; [|exact Add|apply split_from_not_nil].
    now rewrite join_split.
Qed.

Lemma paint_layout_contiguous_witness :
  laid_out (fun s => Z.of_nat (length s)) 10%Z
    [Draw 10 TextColor "the c"; Draw 15 Red "at"; Draw 17 TextColor " s";
     Draw 19 Red "at"; Draw 21 TextColor ""].
Proof.
  apply (paint_layout_contiguous (fun s => Z.of_nat (length s)) 10%Z "at"
           (Some "the cat sat")).
  reflexivity.
Defined.

(** X2.  When [paint] draws the text itself, the pens alternate between the
    text colour and red, beginning and ending with the text colour; every
    red call draws the keyword, there is at least one, and the calls are
    one more than twice the red ones.  It only does so for a non-empty
    keyword that occurs in the text. *)
Theorem paint_pens_alternate (width : string -> Z) (rect_x : Z)
    (keyword : string) (data : option string) (calls : list draw) :
  paint width rect_x keyword data = Drawn calls ->
  keyword <> ""
  /\ Py.contains keyword (match data with Some t => t | None => "" end) = true
  /\ alternating false calls = true
  /\ (forall d, In d (red_calls calls) -> draw_text d = keyword)
  /\ (1 <= List.length (red_calls calls))%nat
  /\ List.length calls = (2 * List.length (red_calls calls) + 1)%nat.
Proof.
  unfold paint.
  destruct ((keyword =? "")
            || negb (Py.contains keyword
                       (match data with Some t => t | None => "" end))) eqn:G;
    [discriminate|].
  apply orb_false_elim in G. destruct G as [K C].
  apply String.eqb_neq in K. apply negb_false_iff in C.
  intros [= <-].
  pose proof (split_present_two _ _ K C) as Two.
  destruct (draw_segments_counts width keyword
              (Py.split keyword None (match data with Some t => t | None => "" end))
              rect_x) as [R L]; [apply split_from_not_nil|].
  repeat split; try assumption.
  - apply draw_segments_alternating.
  - intros d. apply draw_segments_red.
  - lia.
  - lia.
Qed.

Lemma paint_pens_alternate_witness :
  alternating false
    [Draw 0 TextColor ""; Draw 0 Red "ab"; Draw 2 TextColor "";
     Draw 2 Red "ab"; Draw 4 TextColor "a"] = true.
Proof.
  apply (paint_pens_alternate (fun s => Z.of_nat (length s)) 0%Z "ab"
           (Some "ababa")).
  reflexivity.
Defined.

(** ** The dictionary the parser builds *)

Lemma total_matches_app (a b : files_dict) :
  total_matches (a ++ b)%list = (total_matches a + total_matches b)%nat.
Proof.
  induction a as [|[k l] a IH]; simpl; [reflexivity | rewrite IH; lia].
Qed.

Lemma total_dict_append (k : string) (v : match_line) (d : files_dict) :
  dict_mem k d = true ->
  total_matches (dict_append k v d) = S (total_matches d).
Proof.
  induction d as [|[k' l] d IH]; simpl; [discriminate|].
  destruct (k' =? k); simpl.
  - intros _. rewrite length_app. simpl. lia.
  - intros H. rewrite (IH H). lia.
Qed.

Lemma total_dict_add (k : string) (v : match_line) (d : files_dict) :
  total_matches (dict_add k v d) = S (total_matches d).
Proof.
  unfold dict_add, dict_new. destruct (dict_mem k d) eqn:M.
  - now apply total_dict_append.
  - rewrite total_dict_append.
    + rewrite total_matches_app. simpl. lia.
    + rewrite dict_mem_keys, map_app, has_key_app. simpl.
      rewrite String.eqb_refl. apply orb_true_r.
Qed.

Lemma total_fold_dict_add (ms : list (string * match_line)) (d : files_dict) :
  total_matches (fold_left (fun d m => dict_add (fst m) (snd m) d) ms d)
  = (total_matches d + List.length ms)%nat.
Proof.
  revert d; induction ms as [|m ms IH]; intros d; simpl; [lia|].
  rewrite IH, total_dict_add. lia.
Qed.

Lemma matches_of_kept (limit : nat) (root : string) (lines : list string) :
  Forall (line_ok limit) lines ->
  List.length (matches_of limit root lines) = List.length (kept_lines lines)
  /\ List.length (flat_map (debug_line root) lines)
     = List.length (kept_lines lines).
Proof.
  unfold kept_lines.
  induction 1 as [|line lines Hl _ [IH1 IH2]]; simpl; [auto|].
  unfold line_match, debug_line.
  destruct (line_fields line) as [[[a b] c]|] eqn:F; simpl.
  - pose proof (Hl a b c F) as I.
    destruct (Py.int limit b); [simpl; auto | now destruct I].
  - auto.
Qed.

Lemma grouped_not_empty (ms : list (string * match_line)) (k : string)
    (ls : list match_line) :
  In (k, ls) (grouped ms) -> ls <> [].
Proof.
  intros H. apply grouped_entry in H. destruct H as [K ->].
  apply existsb_exists in K. destruct K as (k' & I & E).
  apply String.eqb_eq in E. subst k'.
  apply in_map_iff in I. destruct I as ([k' v] & E & I). simpl in E. subst k'.
  apply lines_of_in in I. intros N. now rewrite N in I.
Qed.

(** X3.  The dictionary the parser returns has no key twice and no key without
    a match; it holds one match for every line the loop kept, and the loop
    has printed one line for each. *)
Theorem parse_dictionary_invariants (limit : nat) (raw root : string)
    (files : files_dict) (out : list string) :
  parse limit raw root = Next files out ->
  NoDup (map fst files)
  /\ (forall k ls, In (k, ls) files -> ls <> [])
  /\ total_matches files = List.length (kept_lines (result_lines raw))
  /\ List.length out = total_matches files
  /\ (List.length files <= total_matches files)%nat.
Proof.
  unfold parse. intros H.
  pose proof (parse_loop_next _ _ _ _ _ _ _ H) as Ok.
  rewrite (parse_loop_ok _ _ _ _ _ Ok) in H. injection H as <- <-.
  destruct (matches_of_kept limit root _ Ok) as [M D].
  assert (T : total_matches
                (fold_left (fun d m => dict_add (fst m) (snd m) d)
                           (matches_of limit root (result_lines raw)) [])
              = List.length (kept_lines (result_lines raw))).
  { rewrite total_fold_dict_add. simpl. exact M. }
  assert (NE : forall k ls,
             In (k, ls) (fold_left (fun d m => dict_add (fst m) (snd m) d)
                           (matches_of limit root (result_lines raw)) []) ->
             ls <> []).
  { intros k ls. rewrite fold_dict_add_grouped. apply grouped_not_empty. }
  repeat split.
  - rewrite fold_dict_add_grouped, grouped_keys. apply first_seen_nodup.
  - exact NE.
  - exact T.
  - simpl. now rewrite T.
  - clear -NE.
    induction (fold_left (fun d m => dict_add (fst m) (snd m) d)
                 (matches_of limit root (result_lines raw)) [])
      as [|[k l] d IH]; simpl; [lia|].
    assert (l <> []) by (apply (NE k); now left).
    assert (List.length d <= total_matches d)%nat
      by (apply IH; intros k' ls I; apply (NE k'); now right).
    destruct l; [congruence | simpl; lia].
Qed.

Lemma parse_dictionary_invariants_witness :
  NoDup (map fst [("/sdk/a.c", [(3%Z, "foo"); (9%Z, "baz")]);
                  ("/sdk/b.c", [(5%Z, "bar")])]).
Proof.
  apply (parse_dictionary_invariants 4300
           ("a.c:3:foo" ++ LF ++ "junk" ++ LF ++ "b.c:5:bar" ++ LF
            ++ "a.c:9:baz" ++ LF) "/sdk"
           [("/sdk/a.c", [(3%Z, "foo"); (9%Z, "baz")]); ("/sdk/b.c", [(5%Z, "bar")])]
           ["[DEBUG] Match: /sdk/a.c:3 -> foo"; "[DEBUG] Match: /sdk/b.c:5 -> bar";
            "[DEBUG] Match: /sdk/a.c:9 -> baz"]).
  vm_compute. reflexivity.
Defined.

(** ** Where the parser stops *)

Lemma debug_line_skip (root line : string) :
  line_fields line = None -> debug_line root line = [].
Proof. unfold debug_line. now intros ->. Qed.

Lemma parse_loop_fail_point (limit : nat) (root : string)
    (lines : list string) (files : files_dict) (out out' : list string)
    (e : exn) :
  parse_loop limit root lines files out = Fail e out' ->
  e = ValueError
  /\ exists before line after a b c,
       lines = (before ++ line :: after)%list
       /\ Forall (line_ok limit) before
       /\ line_fields line = Some (a, b, c)
       /\ Py.int limit b = None
       /\ out' = (out ++ flat_map (debug_line root) before)%list.
Proof.
  revert files out; induction lines as [|line lines IH]; intros files out;
    simpl; [discriminate|].
  rewrite loop_body_fields.
  destruct (line_fields line) as [[[a b] c]|] eqn:F.
  - destruct (Py.int limit b) as [n|] eqn:I.
    + intros H. destruct (IH _ _ H)
        as (E & before & l & after & a' & b' & c' & L & Ok & Fl & Il & O).
      split; [exact E|].
      exists (line :: before), l, after, a', b', c'. repeat split; try assumption.
      * simpl. now rewrite L.
      * constructor; [|exact Ok]. intros x y z Fx. rewrite F in Fx.
        injection Fx as <- <- <-. congruence.
      * rewrite O.
        change (flat_map (debug_line root) (line :: before))
          with (debug_line root line ++ flat_map (debug_line root) before)%list.
        now rewrite <- app_assoc.
    + intros [= <- <-]. split; [reflexivity|].
      exists [], line, lines, a, b, c. repeat split; try assumption.
      * constructor.
      * simpl. now rewrite app_nil_r.
  - intros H. destruct (IH _ _ H)
      as (E & before & l & after & a' & b' & c' & L & Ok & Fl & Il & O).
    split; [exact E|].
    exists (line :: before), l, after, a', b', c'. repeat split; try assumption.
    + simpl. now rewrite L.
    + constructor; [|exact Ok]. intros x y z Fx. congruence.
    + rewrite O.
      change (flat_map (debug_line root) (line :: before))
        with (debug_line root line ++ flat_map (debug_line root) before)%list.
      now rewrite (debug_line_skip _ _ F).
Qed.

(** X4.  The parser fails in one way only: with [ValueError], at the first kept
    line whose number field [int] refuses; what it has printed by then are
    the lines of the kept lines before that one. *)
Theorem parse_fails_at_first_bad_number (limit : nat) (raw root : string)
    (e : exn) (out : list string) :
  parse limit raw root = Fail e out ->
  e = ValueError
  /\ exists before line after filepath lineno code,
       result_lines raw = (before ++ line :: after)%list
       /\ Forall (line_ok limit) before
       /\ line_fields line = Some (filepath, lineno, code)
       /\ Py.int limit lineno = None
       /\ out = flat_map (debug_line root) before.
Proof.
  unfold parse. intros H. exact (parse_loop_fail_point _ _ _ _ _ _ _ H).
Qed.

Lemma parse_fails_at_first_bad_number_witness :
  exists before line after filepath lineno code,
    result_lines ("a.c:3:foo" ++ LF ++ "b.c:x:bar" ++ LF ++ "c.c:y:baz" ++ LF)
    = (before ++ line :: after)%list
    /\ Forall (line_ok 4300) before
    /\ line_fields line = Some (filepath, lineno, code)
    /\ Py.int 4300 lineno = None
    /\ ["[DEBUG] Match: /sdk/a.c:3 -> foo"] = flat_map (debug_line "/sdk") before.
Proof.
  apply (parse_fails_at_first_bad_number 4300
           ("a.c:3:foo" ++ LF ++ "b.c:x:bar" ++ LF ++ "c.c:y:baz" ++ LF) "/sdk"
           ValueError ["[DEBUG] Match: /sdk/a.c:3 -> foo"]).
  vm_compute. reflexivity.
Defined.

(** ** [perform_search], branch by branch *)

Section Search.

Variable limit : nat.
Variable check_output : list string -> string -> process.

Lemma perform_search_missing (w : viewer) :
  (search_keyword w =? "") || (search_root w =? "") = true ->
  perform_search limit check_output w
  = Returned (Viewer (path_input w) (query_input w) [] (delegate w)
                (last_sdk_path w)
                (stdout w ++ ["[WARN] Missing keyword or SDK path"])%list
                (spawned w) (shell w)).
Proof.
  unfold perform_search, search_keyword, search_root.
  cbn [query_input path_input set_tree]. now intros ->.
Qed.

Lemma perform_search_started (w : viewer) :
  (search_keyword w =? "") || (search_root w =? "") = false ->
  perform_search limit check_output w
  = let cmd := rg_command (search_keyword w) in
    let root := search_root w in
    let started out :=
      Viewer (path_input w) (query_input w) [] (delegate w) root
             (stdout w
              ++ [("[INFO] Running: " ++ Py.join " " cmd)%string;
                  ("[INFO] In directory: " ++ root)%string] ++ out)%list
             (spawned w ++ [(cmd, root)])%list (shell w) in
    match check_output cmd root with
    | CalledProcessError output =>
        Returned (started ["[ERROR] ripgrep returned non-zero exit code"; output])
    | FileNotFoundError =>
        Returned
          (started ["[ERROR] ripgrep (rg) is not installed or not in PATH"])
    | OtherError => Raised SubprocessError (started [])
    | Completed results =>
        match parse limit results root with
        | Fail e out =>
            Raised e (started (["[INFO] ripgrep output:"; results] ++ out)%list)
        | Next files out =>
            Returned
              (Viewer (path_input w) (query_input w) (map file_item files)
                 (Some (search_keyword w)) root
                 (stdout w
                  ++ [("[INFO] Running: " ++ Py.join " " cmd)%string;
                      ("[INFO] In directory: " ++ root)%string]
                  ++ ["[INFO] ripgrep output:"; results] ++ out)%list
                 (spawned w ++ [(cmd, root)])%list (shell w))
        end
    end.
Proof.
  unfold perform_search, search_keyword, search_root.
  cbn [query_input path_input set_tree]. intros ->. cbv zeta.
  unfold save_last_path, spawn, print.
  cbn [query_input path_input tree delegate last_sdk_path stdout spawned shell].
  destruct (check_output (rg_command (Py.strip (query_input w)))
              (Py.strip (path_input w))) as [results|output| |].
  - destruct (parse limit results (Py.strip (path_input w))) as [files out|e out];
      rewrite fold_print;
      cbn [set_delegate set_tree query_input path_input tree delegate
           last_sdk_path stdout spawned shell];
      do 2 f_equal; rewrite <- ?app_assoc; reflexivity.
  - do 2 f_equal. rewrite <- ?app_assoc. reflexivity.
  - do 2 f_equal. rewrite <- ?app_assoc. reflexivity.
  - do 2 f_equal. rewrite app_nil_r, <- ?app_assoc. reflexivity.
Qed.

End Search.

(** ** What a search leaves behind *)


(** X6.  The tree [perform_search] leaves depends on the two input fields and
    on the answer of the search tool only, not on what the tree, the
    delegate or anything else was before: it is empty, or it is built from
    the dictionary parsed out of this search's output. *)
Theorem perform_search_tree_is_fresh (limit : nat)
    (check_output : list string -> string -> process) (w1 w2 : viewer) :
  path_input w1 = path_input w2 -> query_input w1 = query_input w2 ->
  tree (final (perform_search limit check_output w1))
  = tree (final (perform_search limit check_output w2))
  /\ (tree (final (perform_search limit check_output w1)) = []
      \/ exists results files out,
           check_output (rg_command (search_keyword w1)) (search_root w1)
           = Completed results
           /\ parse limit results (search_root w1) = Next files out
           /\ tree (final (perform_search limit check_output w1))
              = map file_item files).
Proof.
  intros P Q.
  assert (K : search_keyword w1 = search_keyword w2)
    by (unfold search_keyword; now rewrite Q).
  assert (R : search_root w1 = search_root w2)
    by (unfold search_root; now rewrite P).
  destruct ((search_keyword w1 =? "") || (search_root w1 =? "")) eqn:G.
  - rewrite (perform_search_missing limit check_output w1 G).
    rewrite K, R in G.
    rewrite (perform_search_missing limit check_output w2 G).
    split; [reflexivity | now left].
  - rewrite (perform_search_started limit check_output w1 G).
    pose proof G as G2. rewrite K, R in G2.
    rewrite (perform_search_started limit check_output w2 G2).
    cbv zeta. rewrite <- K, <- R.
    destruct (check_output (rg_command (search_keyword w1)) (search_root w1))
      as [results|output| |] eqn:C; try (split; [reflexivity | now left]).
    destruct (parse limit results (search_root w1)) as [files out|e out] eqn:E;
      [|split; [reflexivity | now left]].
    split; [reflexivity|]. right. now exists results, files, out.
Qed.

Lemma perform_search_tree_is_fresh_witness :
  tree (final (perform_search 4300 (fun _ _ => Completed "a.c:3:foo")
                 (Viewer "/sdk" "foo" [TreeItem "/old/x.c" [("/old/x.c:1", "old")]]
                    (Some "old") "/old" ["earlier"] [] [])))
  = tree (final (perform_search 4300 (fun _ _ => Completed "a.c:3:foo")
                   (Viewer "/sdk" "foo" [] None "" [] [] []))).
Proof.
  apply (perform_search_tree_is_fresh 4300 (fun _ _ => Completed "a.c:3:foo")
           (Viewer "/sdk" "foo" [TreeItem "/old/x.c" [("/old/x.c:1", "old")]]
              (Some "old") "/old" ["earlier"] [] [])
           (Viewer "/sdk" "foo" [] None "" [] [] []));
    reflexivity.
Defined.




(** X8.  Unless the tool completes and its output parses, [perform_search]
    leaves an empty tree and the delegate it found: the keyword of an
    earlier search stays the one that is highlighted. *)
Theorem perform_search_unfinished_keeps_delegate (limit : nat)
    (check_output : list string -> string -> process) (w : viewer) :
  (forall results files out,
      check_output (rg_command (search_keyword w)) (search_root w)
      = Completed results ->
      parse limit results (search_root w) <> Next files out) ->
  tree (final (perform_search limit check_output w)) = []
  /\ delegate (final (perform_search limit check_output w)) = delegate w.
Proof.
  intros H.
  destruct ((search_keyword w =? "") || (search_root w =? "")) eqn:G.
  - rewrite (perform_search_missing limit check_output w G). now split.
  - rewrite (perform_search_started limit check_output w G). cbv zeta.
    destruct (check_output (rg_command (search_keyword w)) (search_root w))
      as [results|output| |] eqn:C; try (now split).
    destruct (parse limit results (search_root w)) as [files out|e out] eqn:E;
      [|now split].
    now destruct (H results files out eq_refl).
Qed.

Lemma perform_search_unfinished_keeps_delegate_witness :
  tree (final (perform_search 4300 (fun _ _ => CalledProcessError "no match")
                 (Viewer "/sdk" "foo" [TreeItem "/sdk/x.c" []] (Some "old")
                    "/sdk" [] [] []))) = []
  /\ delegate
       (final (perform_search 4300 (fun _ _ => CalledProcessError "no match")
                 (Viewer "/sdk" "foo" [TreeItem "/sdk/x.c" []] (Some "old")
                    "/sdk" [] [] []))) = Some "old".
Proof.
  apply (perform_search_unfinished_keeps_delegate 4300
           (fun _ _ => CalledProcessError "no match")
           (Viewer "/sdk" "foo" [TreeItem "/sdk/x.c" []] (Some "old")
              "/sdk" [] [] [])).
  intros results files out H. discriminate H.
Defined.

(** X9.  [perform_search] lets an exception out in two cases only: the tool
    fails in a way the two handlers do not catch, or the tool completes and
    some kept line of its output has a number field [int] refuses.  The
    root has been stored and the tree is empty by then. *)
Theorem perform_search_raises_only (limit : nat)
    (check_output : list string -> string -> process) (w w' : viewer)
    (e : exn) :
  perform_search limit check_output w = Raised e w' ->
  tree w' = [] /\ last_sdk_path w' = search_root w
  /\ ((e = SubprocessError
       /\ check_output (rg_command (search_keyword w)) (search_root w)
          = OtherError)
      \/ (e = ValueError
          /\ exists results,
               check_output (rg_command (search_keyword w)) (search_root w)
               = Completed results
               /\ ~ Forall (line_ok limit) (result_lines results))).
Proof.
  destruct ((search_keyword w =? "") || (search_root w =? "")) eqn:G.
  - rewrite (perform_search_missing limit check_output w G). discriminate.
  - rewrite (perform_search_started limit check_output w G). cbv zeta.
    destruct (check_output (rg_command (search_keyword w)) (search_root w))
      as [results|output| |] eqn:C; try discriminate.
    + destruct (parse limit results (search_root w)) as [files out|e' out] eqn:E;
        [discriminate|].
      intros [= <- <-]. repeat split. right.
      destruct (parse_loop_fail_point _ _ _ _ _ _ _ E)
        as (-> & before & line & after & a & b & c & L & _ & F & I & _).
      split; [reflexivity|]. exists results. split; [reflexivity|].
      apply (not_line_ok limit _ line a b c); try assumption.
      unfold result_lines in *. rewrite L. apply in_elt.
    + intros [= <- <-]. repeat split. now left.
Qed.

Lemma perform_search_raises_only_witness :
  tree (Viewer "/sdk" "foo" [] None "/sdk"
          ["[INFO] Running: rg --no-ignore --color=never --with-filename --line-number --glob **/*.c --glob **/*.h foo";
           "[INFO] In directory: /sdk"; "[INFO] ripgrep output:"; "a.c:x:foo"]
          [(rg_command "foo", "/sdk")] []) = [].
Proof.
  apply (perform_search_raises_only 4300 (fun _ _ => Completed "a.c:x:foo")
           (Viewer "/sdk" "foo" [TreeItem "/old" []] None "" [] [] [])
           _ ValueError).
  vm_compute. reflexivity.
Defined.

(** ** Activating tree items *)

(** X10.  [open_file_location] raises exactly when the label holds a NUL
    character, with the [ValueError] of [os.system]: the unpacking of the
    split label never fails.  On any other label it hands [os.system]
    exactly one command line, which begins with [code ]; either way the
    tree, the delegate, the input fields and the stored path are left as
    they were. *)
Theorem open_file_location_raises_on_nul_only (text : string) (w : viewer) :
  exists w',
    ((has_nul text = true
      /\ open_file_location text w = Raised ValueError w'
      /\ shell w' = shell w)
     \/ (has_nul text = false
         /\ open_file_location text w = Returned w'
         /\ exists cmd,
              shell w' = (shell w ++ [cmd])%list /\ prefix "code " cmd = true))
    /\ tree w' = tree w /\ delegate w' = delegate w
    /\ path_input w' = path_input w /\ query_input w' = query_input w
    /\ last_sdk_path w' = last_sdk_path w.
Proof.
  destruct (colons text) as [|n] eqn:C.
  - rewrite (open_file_location_plain _ _ C).
    destruct (has_nul text) eqn:N.
    + rewrite os_system_refuses by now rewrite has_nul_plain_command.
      exists w. split; [left|]; repeat split.
    + rewrite os_system_runs by now rewrite has_nul_plain_command.
      eexists. split; [right; split; [reflexivity|]; split; [reflexivity|]|].
      * eexists. split; reflexivity.
      * repeat split.
  - destruct (open_file_location_goto text w) as (a & b & E & _ & _ & O); [lia|].
    rewrite O. destruct (has_nul text) eqn:N.
    + rewrite os_system_refuses by now rewrite has_nul_goto_command, <- E.
      eexists. split; [left; split; [reflexivity|]; split; reflexivity|].
      repeat split.
    + rewrite os_system_runs by now rewrite has_nul_goto_command, <- E.
      eexists. split; [right; split; [reflexivity|]; split; [reflexivity|]|].
      * eexists. split; reflexivity.
      * repeat split.
Qed.






(** ** The stored path *)


(** X12.  A directory chosen in the dialog is shown in the path field and
    stored; the next start of the program shows it again.  Cancelling the
    dialog changes nothing, and a start with nothing stored leaves the
    field empty. *)
Theorem browse_path_is_remembered (path : string) (w : viewer)
    (out : list string) (procs : list (list string * string))
    (cmds : list string) :
  path <> "" ->
  path_input (browse_path path w) = path
  /\ last_sdk_path (browse_path path w) = path
  /\ path_input (init (last_sdk_path (browse_path path w)) out procs cmds)
     = path
  /\ browse_path "" w = w
  /\ path_input (init "" out procs cmds) = "".
Proof.
  intros N. unfold browse_path, init, load_last_path.
  apply String.eqb_neq in N. rewrite N.
  cbn [last_sdk_path save_last_path set_path_input path_input].
  rewrite N. repeat split.
Qed.

Lemma browse_path_is_remembered_witness :
  path_input (init (last_sdk_path
                      (browse_path "/home/user/sdk"
                         (Viewer "" "" [] None "" [] [] []))) [] [] [])
  = "/home/user/sdk".
Proof.
  apply (browse_path_is_remembered "/home/user/sdk"
           (Viewer "" "" [] None "" [] [] []) [] [] []).
  discriminate.
Defined.



(** ** More output only adds to the result *)

Lemma first_seen_app_prefix (l1 l2 : list string) :
  exists more, first_seen (l1 ++ l2) = (first_seen l1 ++ more)%list.
Proof.
  induction l2 as [|k l2 (more & IH)] using rev_ind.
  - exists []. now rewrite !app_nil_r.
  - rewrite app_assoc, first_seen_snoc, IH.
    destruct (has_key k (l1 ++ l2)).
    + now exists more.
    + exists (more ++ [k])%list. now rewrite app_assoc.
Qed.

Lemma lines_of_app (k : string) (ms1 ms2 : list (string * match_line)) :
  lines_of k (ms1 ++ ms2) = (lines_of k ms1 ++ lines_of k ms2)%list.
Proof. unfold lines_of. now rewrite filter_app, map_app. Qed.

Lemma matches_of_app (limit : nat) (root : string) (l1 l2 : list string) :
  matches_of limit root (l1 ++ l2)
  = (matches_of limit root l1 ++ matches_of limit root l2)%list.
Proof.
  induction l1 as [|l l1 IH]; simpl; [reflexivity|].
  destruct (line_match limit root l); simpl; now rewrite IH.
Qed.

(** X5.  When the loop gets through a list of lines followed by more lines, it
    gets through the first list alone too, and what the further lines do
    to that result is add to it: the files already there keep their
    places, each keeps its matches and may get more at the end, new files
    come after, and the lines printed are printed after the earlier
    ones. *)
Theorem parse_loop_more_lines_extend (limit : nat) (root : string)
    (lines more : list string) (files' : files_dict) (out' : list string) :
  parse_loop limit root (lines ++ more) [] [] = Next files' out' ->
  exists files out,
    parse_loop limit root lines [] [] = Next files out
    /\ (exists new_keys, map fst files' = (map fst files ++ new_keys)%list)
    /\ (forall k ls, In (k, ls) files ->
          exists added, In (k, (ls ++ added)%list) files')
    /\ (exists printed, out' = (out ++ printed)%list).
Proof.
  intros H. pose proof (parse_loop_next _ _ _ _ _ _ _ H) as Ok.
  rewrite (parse_loop_ok _ _ _ _ _ Ok) in H. injection H as <- <-.
  apply Forall_app in Ok. destruct Ok as [Ok1 _].
  rewrite (parse_loop_ok _ _ _ _ _ Ok1). eexists _, _. split; [reflexivity|].
  rewrite !fold_dict_add_grouped, matches_of_app. repeat split.
  - rewrite !grouped_keys, map_app. apply first_seen_app_prefix.
  - intros k ls I. apply grouped_entry in I. destruct I as [K ->].
    exists (lines_of k (matches_of limit root more)).
    apply grouped_entry. split; [|symmetry; apply lines_of_app].
    rewrite map_app, has_key_app, K. reflexivity.
  - simpl. rewrite flat_map_app. eexists. reflexivity.
Qed.

Lemma parse_loop_more_lines_extend_witness :
  exists files out,
    parse_loop 4300 "/sdk" ["a.c:3:foo"; "b.c:5:bar"] [] [] = Next files out
    /\ (exists new_keys,
          map fst [("/sdk/a.c", [(3%Z, "foo"); (9%Z, "baz")]);
                   ("/sdk/b.c", [(5%Z, "bar")]); ("/sdk/c.c", [(1%Z, "x")])]
          = (map fst files ++ new_keys)%list)
    /\ (forall k ls, In (k, ls) files ->
          exists added,
            In (k, (ls ++ added)%list)
               [("/sdk/a.c", [(3%Z, "foo"); (9%Z, "baz")]);
                ("/sdk/b.c", [(5%Z, "bar")]); ("/sdk/c.c", [(1%Z, "x")])])
    /\ (exists printed,
          ["[DEBUG] Match: /sdk/a.c:3 -> foo"; "[DEBUG] Match: /sdk/b.c:5 -> bar";
           "[DEBUG] Match: /sdk/a.c:9 -> baz"; "[DEBUG] Match: /sdk/c.c:1 -> x"]
          = (out ++ printed)%list).
Proof.
  apply (parse_loop_more_lines_extend 4300 "/sdk"
           ["a.c:3:foo"; "b.c:5:bar"] ["a.c:9:baz"; "c.c:1:x"]).
  vm_compute. reflexivity.
Defined.
